(** * Segment membership reconciliation (script.py)

    A shallow embedding of the reconciliation script: the cache document
    that [json.load] returns, the world the script acts on (the cache file,
    the clock, the chronological record of every I/O action), and the
    functions [fetch_profiles], [push_event_to_klaviyo], [update_cache],
    [remove_stale_profiles] and [main], written in a state-and-exception
    monad that follows the Python control flow statement by statement. *)

From stdpp Require Import base option list strings pretty gmap sets.

Open Scope string_scope.
Open Scope list_scope.
Set Warnings "-register-all,-clear-no-such-hyp".

(** ** Python values held by the cache document

    The documents are those made of [None], strings, lists of strings and
    dictionaries: what the script itself writes, and the ill-shaped
    documents that can be built from the same pieces.  Numbers and booleans
    are outside this type.  A dictionary keeps its insertion order.  A
    string is held as its UTF-8 encoding. *)

Inductive json : Type :=
  | JNull
  | JStr (s : string)
  | JArr (l : list string)
  | JObj (kv : list (string * json)).

Inductive exn : Type :=
  | FileNotFoundError
  | PermissionError
  | JSONDecodeError
  | KeyError
  | TypeError
  | AttributeError
  | RequestException.

Inductive res (A : Type) : Type :=
  | Ok (a : A)
  | Raise (e : exn).
Arguments Ok {A} a.
Arguments Raise {A} e.

Definition res_bind {A B} (r : res A) (f : A → res B) : res B :=
  match r with
  | Ok a => f a
  | Raise e => Raise e
  end.

Module Py.

(** First binding of key [k], as in a dictionary whose keys are unique. *)
Fixpoint assoc (k : string) (kv : list (string * json)) : option json :=
  match kv with
  | [] => None
  | (k', v) :: kv' => if decide (k = k') then Some v else assoc k kv'
  end.

(** [d[k] = v] on the entries of a dictionary: the value is replaced where
    the key already is, a new key goes last. *)
Fixpoint assign (k : string) (v : json) (kv : list (string * json))
  : list (string * json) :=
  match kv with
  | [] => [(k, v)]
  | (k', v') :: kv' =>
      if decide (k = k') then (k', v) :: kv' else (k', v') :: assign k v kv'
  end.

(** [obj[k]] for a string key [k]. *)
Definition getitem (obj : json) (k : string) : res json :=
  match obj with
  | JObj kv =>
      match assoc k kv with
      | Some v => Ok v
      | None => Raise KeyError
      end
  | JNull | JStr _ | JArr _ => Raise TypeError
  end.

(** [obj.get(k, default)]. *)
Definition get (obj : json) (k : string) (dflt : json) : res json :=
  match obj with
  | JObj kv => Ok (default dflt (assoc k kv))
  | JNull | JStr _ | JArr _ => Raise AttributeError
  end.

(** [obj[k] = v] for a string key [k]. *)
Definition setitem (obj : json) (k : string) (v : json) : res json :=
  match obj with
  | JObj kv => Ok (JObj (assign k v kv))
  | JNull | JStr _ | JArr _ => Raise TypeError
  end.

(** A string stands for the Python [str] whose UTF-8 encoding it is.  A
    byte [10xxxxxx] continues the character begun before it. *)
Definition is_continuation (c : Ascii.ascii) : bool :=
  match c with
  | Ascii.Ascii _ _ _ _ _ _ b6 b7 => b7 && negb b6
  end.

(** The one-character strings of [s], in order: what iterating over a
    Python string yields.  Each is a leading byte with the continuation
    bytes that follow it, that is, one code point. *)
Fixpoint chars (s : string) : list string :=
  match s with
  | EmptyString => []
  | String c s' =>
      let rest := chars s' in
      match s', rest with
      | String c' _, char :: more =>
          if is_continuation c'
          then String c char :: more
          else String c EmptyString :: rest
      | _, _ => String c EmptyString :: rest
      end
  end.

(** [set(v)]: a list gives its elements, a string its characters, a
    dictionary its keys; [None] is not iterable. *)
Definition set_of (v : json) : res (gset string) :=
  match v with
  | JArr l => Ok (list_to_set l)
  | JStr s => Ok (list_to_set (chars s))
  | JObj kv => Ok (list_to_set (kv.*1))
  | JNull => Raise TypeError
  end.

(** [v.extend(xs)]: only lists have the method. *)
Definition extend (v : json) (xs : list string) : res json :=
  match v with
  | JArr l => Ok (JArr (l ++ xs))
  | JNull | JStr _ | JObj _ => Raise AttributeError
  end.

(** [obj[k].extend(xs)]: the list is changed in place, so the dictionary
    that holds it sees the longer list under the same key. *)
Definition extend_item (obj : json) (k : string) (xs : list string)
  : res json :=
  res_bind (getitem obj k) (λ v,
  res_bind (extend v xs) (λ v',
  setitem obj k v')).

End Py.

(** The order in which Python walks a set is left open: any enumeration
    that lists every element once. *)
Class SetOrder : Type := {
  iter : gset string → list string;
  iter_NoDup : ∀ X, NoDup (iter X);
  iter_elem_of : ∀ X x, x ∈ iter X ↔ x ∈ X
}.

(** One such order, used to run the model on concrete inputs. *)
Definition elements_order : SetOrder :=
  {| iter := elements;
     iter_NoDup := NoDup_elements;
     iter_elem_of := λ X x, elem_of_elements X x |}.

(** ** The world *)

(** What opening and decoding [cache.json] meets. *)
Inductive cache_file : Type :=
  | Missing                (* open raises FileNotFoundError *)
  | Unreadable             (* open raises another OSError *)
  | Garbage                (* json.load raises JSONDecodeError *)
  | Stored (doc : json).   (* json.load returns doc *)

Inductive level : Type := INFO | WARNING | ERROR.

Inductive message : Type :=
  | FetchFailed (status : nat)
  | EventSent (event_name email : string)
  | EventFailed (email : string) (status : nat)
  | EventError (email : string)
  | NewProfiles (new_profiles : list string)
  | CacheUpdated
  | NoNewProfiles
  | CacheInvalid
  | StaleProfiles (stale : list string)
  | StaleUpdated
  | NoStaleProfiles
  | NoProfilesFetched.

(** The answer to one [requests.post]. *)
Inductive reply : Type :=
  | Status (code : nat)
  | ConnectionFailed.

Inductive event : Type :=
  | EvRead
  | EvWrite (doc : json)
  | EvPost (email event_name timestamp : string) (r : reply)
  | EvLog (lvl : level) (msg : message).

Record world : Type := World {
  file : cache_file;
  writable : bool;
  ticks : nat;
  trace : list event
}.

Definition set_file (f : cache_file) (w : world) : world :=
  World f (writable w) (ticks w) (trace w).
Definition tick (w : world) : world :=
  World (file w) (writable w) (S (ticks w)) (trace w).
Definition record (e : event) (w : world) : world :=
  World (file w) (writable w) (ticks w) (trace w ++ [e]).

(** ** State and exceptions *)

Definition M (A : Type) : Type := world → res A * world.

Definition ret {A} (a : A) : M A := λ w, (Ok a, w).
Definition raise {A} (e : exn) : M A := λ w, (Raise e, w).
Definition bind {A B} (m : M A) (f : A → M B) : M B :=
  λ w, match m w with
       | (Ok a, w') => f a w'
       | (Raise e, w') => (Raise e, w')
       end.
Definition lift {A} (r : res A) : M A := λ w, (r, w).

(** [try: m except <the exceptions h answers>: h e]. *)
Definition try_except {A} (m : M A) (h : exn → option (M A)) : M A :=
  λ w, match m w with
       | (Ok a, w') => (Ok a, w')
       | (Raise e, w') =>
           match h e with
           | Some handler => handler w'
           | None => (Raise e, w')
           end
       end.

Declare Scope M_scope.
Notation "x ← m ; k" := (bind m (λ x, k))
  (at level 20, m at level 100, k at level 200, only parsing) : M_scope.
Notation "m ;; k" := (bind m (λ _, k))
  (at level 100, k at level 200, right associativity, only parsing) : M_scope.
Delimit Scope M_scope with M.
Bind Scope M_scope with M.
Open Scope M_scope.

(** [for x in xs: body x]. *)
Fixpoint for_each {A} (xs : list A) (body : A → M unit) : M unit :=
  match xs with
  | [] => ret tt
  | x :: xs' => body x;; for_each xs' body
  end.

Definition logging (lvl : level) (msg : message) : M unit :=
  λ w, (Ok tt, record (EvLog lvl msg) w).

(** The pages the segment endpoint serves to one run, request by request:
    a chain of 200 responses that ends with a page without a next link, with
    a response of another status, or with a request that fails. *)
Inductive source : Type :=
  | LastPage (emails : list string)
  | Page (emails : list string) (next : source)
  | BadStatus (status : nat)
  | NoConnection.

(** ** The script *)

Section Script.

Context {order : SetOrder}.
(** [datetime.now(timezone.utc).isoformat()] at each successive call. *)
Variable clock : nat → string.
(** The events endpoint: its answer to a request, given all that has
    happened so far. *)
Variable notifier : list event → string → string → reply.

Definition CACHE_FILE_default : json :=
  JObj [("profiles", JArr []); ("last_updated", JNull)].

(** [datetime.now(timezone.utc).isoformat()] *)
Definition utcnow : M string :=
  λ w, (Ok (clock (ticks w)), tick w).

(** [with open(CACHE_FILE, "r") as f: json.load(f)] *)
Definition load_cache : M json :=
  λ w, let w' := record EvRead w in
       match file w with
       | Missing => (Raise FileNotFoundError, w')
       | Unreadable => (Raise PermissionError, w')
       | Garbage => (Raise JSONDecodeError, w')
       | Stored doc => (Ok doc, w')
       end.

(** [with open(CACHE_FILE, "w") as f: json.dump(cache, f, indent=4)] *)
Definition dump_cache (cache : json) : M unit :=
  λ w, if writable w
       then (Ok tt, record (EvWrite cache) (set_file (Stored cache) w))
       else (Raise PermissionError, w).

(** [requests.post(url, headers=headers, json=payload)], giving the
    status code of the response. *)
Definition requests_post (email event_name timestamp : string) : M nat :=
  λ w, let r := notifier (trace w) email event_name in
       let w' := record (EvPost email event_name timestamp r) w in
       match r with
       | Status code => (Ok code, w')
       | ConnectionFailed => (Raise RequestException, w')
       end.

Fixpoint fetch_pages (src : source) (profiles : list string)
  : M (list string) :=
  match src with
  | LastPage emails => ret (profiles ++ emails)
  | Page emails next => fetch_pages next (profiles ++ emails)
  | BadStatus status => logging ERROR (FetchFailed status);; ret []
  | NoConnection => raise RequestException
  end.

Definition fetch_profiles (src : source) : M (list string) :=
  fetch_pages src [].

Definition push_event_to_klaviyo (email event_name : string) : M unit :=
  timestamp ← utcnow;
  try_except
    (status_code ← requests_post email event_name timestamp;
     if decide (status_code = 202)
     then logging INFO (EventSent event_name email)
     else logging ERROR (EventFailed email status_code))
    (λ e, match e with
          | RequestException => Some (logging ERROR (EventError email))
          | _ => None
          end).

(** [list(set(profiles) - set(cache["profiles"]))] *)
Definition new_profiles_of (profiles : list string) (cache : json)
  : res (list string) :=
  res_bind (Py.getitem cache "profiles") (λ v,
  res_bind (Py.set_of v) (λ cached,
  Ok (iter (list_to_set profiles ∖ cached)))).

(** [set(cache.get("profiles", []))] *)
Definition cached_profiles_of (cache : json) : res (gset string) :=
  res_bind (Py.get cache "profiles" (JArr [])) Py.set_of.

(** [current_cached_profiles - set(fetched_profiles)] *)
Definition stale_profiles_of (fetched_profiles : list string)
    (current_cached_profiles : gset string) : gset string :=
  current_cached_profiles ∖ list_to_set fetched_profiles.

Definition update_cache (profiles : list string) : M unit :=
  cache ← try_except load_cache
    (λ e, match e with
          | FileNotFoundError | JSONDecodeError =>
              Some (ret CACHE_FILE_default)
          | _ => None
          end);
  new_profiles ← lift (new_profiles_of profiles cache);
  match new_profiles with
  | _ :: _ =>
      logging INFO (NewProfiles new_profiles);;
      for_each new_profiles
        (λ email, push_event_to_klaviyo email "Joined Segment");;
      cache ← lift (Py.extend_item cache "profiles" new_profiles);
      now ← utcnow;
      cache ← lift (Py.setitem cache "last_updated" (JStr now));
      dump_cache cache;;
      logging INFO CacheUpdated
  | [] => logging INFO NoNewProfiles
  end.

Definition remove_stale_profiles (fetched_profiles : list string) : M unit :=
  loaded ← try_except (cache ← load_cache; ret (Some cache))
    (λ e, match e with
          | FileNotFoundError | JSONDecodeError =>
              Some (logging WARNING CacheInvalid;; ret None)
          | _ => None
          end);
  match loaded with
  | None => ret tt
  | Some cache =>
      current_cached_profiles ← lift (cached_profiles_of cache);
      let stale_profiles :=
        stale_profiles_of fetched_profiles current_cached_profiles in
      if decide (stale_profiles = ∅)
      then logging INFO NoStaleProfiles
      else
        logging INFO (StaleProfiles (iter stale_profiles));;
        for_each (iter stale_profiles)
          (λ email, push_event_to_klaviyo email "Left Segment");;
        cache ← lift (Py.setitem cache "profiles"
                 (JArr (iter (current_cached_profiles ∖ stale_profiles))));
        now ← utcnow;
        cache ← lift (Py.setitem cache "last_updated" (JStr now));
        dump_cache cache;;
        logging INFO StaleUpdated
  end.

Definition main (src : source) : M unit :=
  profiles ← fetch_profiles src;
  match profiles with
  | _ :: _ =>
      update_cache profiles;;
      remove_stale_profiles profiles
  | [] => logging WARNING NoProfilesFetched
  end.

End Script.

(** ** Observations on documents and traces *)

(** The list under ["profiles"] of a well-shaped document. *)
Definition doc_profiles (doc : json) : option (list string) :=
  match doc with
  | JObj kv =>
      match Py.assoc "profiles" kv with
      | Some (JArr l) => Some l
      | _ => None
      end
  | _ => None
  end.

Definition doc_last_updated (doc : json) : option json :=
  match doc with
  | JObj kv => Py.assoc "last_updated" kv
  | _ => None
  end.

(** The member set a stored, well-shaped record holds. *)
Definition members (f : cache_file) : option (gset string) :=
  match f with
  | Stored doc => list_to_set <$> doc_profiles doc
  | _ => None
  end.

Definition last_updated (f : cache_file) : option json :=
  match f with
  | Stored doc => doc_last_updated doc
  | _ => None
  end.

(** The prior member set of a run: a missing or undecodable record counts
    as the empty default, a stored one must be well-shaped. *)
Definition prior_members (f : cache_file) : option (gset string) :=
  match f with
  | Missing | Garbage => Some ∅
  | Stored _ => members f
  | Unreadable => None
  end.

(** Notification attempts, in order: identity and event name. *)
Definition posts (tr : list event) : list (string * string) :=
  omap (λ e, match e with
             | EvPost email event_name _ _ => Some (email, event_name)
             | _ => None
             end) tr.

(** Documents written to the store, in order. *)
Definition writes (tr : list event) : list json :=
  omap (λ e, match e with EvWrite doc => Some doc | _ => None end) tr.

(** Number of times the store was opened for reading. *)
Definition reads (tr : list event) : nat :=
  length (omap (λ e, match e with EvRead => Some () | _ => None end) tr).

Definition warnings (tr : list event) : list message :=
  omap (λ e, match e with EvLog WARNING msg => Some msg | _ => None end) tr.

(** No notification attempt comes after a store write. *)
Fixpoint writes_come_last (tr : list event) : bool :=
  match tr with
  | [] => true
  | EvWrite _ :: tr' =>
      match posts tr' with
      | [] => writes_come_last tr'
      | _ :: _ => false
      end
  | _ :: tr' => writes_come_last tr'
  end.

Definition attempts (event_name : string) (tr : list event) : list string :=
  (filter (λ p, p.2 = event_name) (posts tr)).*1.

Definition joined (xs : list string) : list (string * string) :=
  (λ email, (email, "Joined Segment")) <$> xs.
Definition left (xs : list string) : list (string * string) :=
  (λ email, (email, "Left Segment")) <$> xs.

(** The cache as [update_cache] holds it after its [try]/[except]. *)
Definition loaded_by_update (f : cache_file) : option json :=
  match f with
  | Missing | Garbage => Some CACHE_FILE_default
  | Stored doc => Some doc
  | Unreadable => None
  end.

(** The document the add phase writes. *)
Definition doc_after_update (kv : list (string * json)) (l new : list string)
    (now : string) : json :=
  JObj (Py.assign "last_updated" (JStr now)
          (Py.assign "profiles" (JArr (l ++ new)) kv)).

(** The document the removal phase writes. *)
Definition doc_after_removal (kv : list (string * json)) (kept : list string)
    (now : string) : json :=
  JObj (Py.assign "last_updated" (JStr now)
          (Py.assign "profiles" (JArr kept) kv)).

(** What one phase does to the world, given the notifications [delta] it
    owes: one read, the notifications, then at most one write, which
    happens exactly when [delta] is not empty and stamps the record with
    the last reading of the clock. *)
Record phase (clock : nat → string) (w w' : world) (evs : list event)
    (delta : list (string * string)) : Prop := {
  phase_trace : trace w' = trace w ++ evs;
  phase_posts : posts evs = delta;
  phase_reads : reads evs = 1;
  phase_warnings : warnings evs = [];
  phase_order : writes_come_last evs = true;
  phase_writable : writable w' = writable w;
  phase_idle :
    delta = [] → file w' = file w ∧ ticks w' = ticks w ∧ writes evs = [];
  phase_change :
    delta ≠ [] →
    ∃ doc, file w' = Stored doc ∧ writes evs = [doc]
           ∧ doc_last_updated doc = Some (JStr (clock (pred (ticks w'))))
           ∧ ticks w < ticks w'
}.

(** The store discipline of a run read off its events: one read, at
    most one write, no notification attempt after a write. *)
Definition store_discipline (tr : list event) : Prop :=
  reads tr = 1 ∧ (length (writes tr) ≤ 1)%nat ∧ writes_come_last tr = true.

(** [w'] continues [w] without a warning, and without losing a stored
    record. *)
Definition calm (w w' : world) : Prop :=
  (∃ evs, trace w' = trace w ++ evs ∧ warnings evs = [])
  ∧ (∀ doc, file w = Stored doc → ∃ doc', file w' = Stored doc').

Definition steady {A} (m : M A) : Prop := ∀ w, calm w (m w).2.

(** Loading never fails: both phases complete whatever the cache file
    holds. *)
Definition load_never_fails : Prop :=
  ∀ (order : SetOrder) clock notifier profiles w,
    writable w = true →
    (update_cache clock notifier profiles w).1 = Ok ()
    ∧ (remove_stale_profiles clock notifier profiles w).1 = Ok ().

(** ** Fixtures *)

Definition accepts_all : list event → string → string → reply :=
  λ _ _ _, Status 202.
Definition always_down : list event → string → string → reply :=
  λ _ _ _, ConnectionFailed.
Definition always_rejects : list event → string → string → reply :=
  λ _ _ _, Status 500.

Definition test_clock (n : nat) : string := "t" +:+ pretty n.

Definition cache_ab : json :=
  JObj [("profiles", JArr ["a"; "b"]); ("last_updated", JNull)].
Definition cache_bc : json :=
  JObj [("profiles", JArr ["b"; "c"]); ("last_updated", JStr "t0")].

(** A store holding members a and b, never yet stamped. *)
Definition world_ab : world := World (Stored cache_ab) true 0 [].
(** A store already mirroring the segment of b and c. *)
Definition world_bc : world := World (Stored cache_bc) true 1 [].
(** No record yet: the first run. *)
Definition world_first : world := World Missing true 0 [].

(** The segment holds b and c, served in two pages. *)
Definition segment_bc : source := Page ["b"] (LastPage ["c"]).
(** The second page request is answered with a 503. *)
Definition segment_failing : source := Page ["b"] (BadStatus 503).

(** The record is the empty dictionary: decodable, but without members. *)
Definition world_no_key : world := World (Stored (JObj [])) true 0 [].
(** The record is a bare list. *)
Definition world_bare_list : world := World (Stored (JArr ["a"])) true 0 [].
(** The file exists but cannot be opened. *)
Definition world_unreadable : world := World Unreadable true 0 [].

(** The script run on the test fixtures, every event accepted. *)
Definition run (src : source) (w : world) : res () * world :=
  main (order := elements_order) test_clock accepts_all src w.

(** One phase's effect on the record: left as it was, or rewritten with a
    new list and a new stamp, every other entry in place. *)
Definition record_step (kv kv' : list (string * json)) (l l' : list string)
  : Prop :=
  (kv' = kv ∧ l' = l)
  ∨ (∃ now, kv' = Py.assign "last_updated" (JStr now)
                    (Py.assign "profiles" (JArr l') kv)).

(** The store of [world_ab], refusing writes. *)
Definition world_read_only : world := World (Stored cache_ab) false 0 [].
(** A store already mirroring b and c, refusing writes. *)
Definition world_bc_read_only : world := World (Stored cache_bc) false 1 [].
(** A record carrying a field the script knows nothing about. *)
Definition cache_noted : json :=
  JObj [("owner", JStr "ops"); ("profiles", JArr ["a"; "b"; "a"])].
Definition world_noted : world := World (Stored cache_noted) true 0 [].
(** The segment endpoint cannot be reached for the second page. *)
Definition segment_unreachable : source := Page ["b"] NoConnection.

(** The fetch fails: some page request meets a response of another status
    than 200, or cannot be made at all. *)
Fixpoint fetch_fails (src : source) : bool :=
  match src with
  | LastPage _ => false
  | Page _ next => fetch_fails next
  | BadStatus _ | NoConnection => true
  end.

(** Every fetch failure is reported as the empty list. *)
Definition failures_reported_as_empty : Prop :=
  ∀ src w, fetch_fails src = true → (fetch_profiles src w).1 = Ok [].

(** A record whose ["profiles"] is a string of one two-byte character,
    and a segment holding the identity spelled by that character. *)
Definition world_text_l : world :=
  World (Stored (JObj [("profiles", JStr "ł")])) true 0 [].
Definition segment_l : source := LastPage ["ł"].

(** Read a trace as the two events that open a phase and the events [evs]
    that follow them. *)
Ltac split_trace_before evs :=
  match goal with
  | |- context [?e1 :: ?e2 :: evs] =>
      change (e1 :: e2 :: evs) with ([e1; e2] ++ evs)
  end.

(** The segment holds b alone. *)
Definition segment_b : source := LastPage ["b"].
(** A record whose ["profiles"] is a string. *)
Definition world_text : world :=
  World (Stored (JObj [("profiles", JStr "ab")])) true 0 [].

(** Read a phase trace as prologue, notifications, epilogue. *)
Ltac split_trace :=
  match goal with
  | |- context [?e1 :: ?e2 :: ?evs ++ ?t] =>
      change (e1 :: e2 :: evs ++ t) with ([e1; e2] ++ evs ++ t)
  end.

(** ** Basic facts *)

Section Basics.

Context {order : SetOrder}.
Variable clock : nat → string.
Variable notifier : list event → string → string → reply.

Lemma bind_Ok {A B} (m : M A) (f : A → M B) w a w' :
  m w = (Ok a, w') → bind m f w = f a w'.
Proof. unfold bind. by intros ->. Qed.

Lemma bind_Raise {A B} (m : M A) (f : A → M B) w e w' :
  m w = (Raise e, w') → bind m f w = (Raise e, w').
Proof. unfold bind. by intros ->. Qed.

Lemma posts_app tr1 tr2 : posts (tr1 ++ tr2) = posts tr1 ++ posts tr2.
Proof. apply omap_app. Qed.

Lemma writes_app tr1 tr2 : writes (tr1 ++ tr2) = writes tr1 ++ writes tr2.
Proof. apply omap_app. Qed.

Lemma reads_app tr1 tr2 : reads (tr1 ++ tr2) = reads tr1 + reads tr2.
Proof. unfold reads. by rewrite omap_app, length_app. Qed.

Lemma warnings_app tr1 tr2 :
  warnings (tr1 ++ tr2) = warnings tr1 ++ warnings tr2.
Proof. apply omap_app. Qed.

(** A trace without writes satisfies the ordering in any context. *)
Lemma writes_come_last_quiet tr :
  writes tr = [] → writes_come_last tr = true.
Proof.
  induction tr as [|[] tr IH]; simpl; try done; auto.
Qed.

Lemma writes_come_last_app tr1 tr2 :
  writes tr1 = [] → writes_come_last (tr1 ++ tr2) = writes_come_last tr2.
Proof.
  induction tr1 as [|[] tr1 IH]; simpl; try done; auto.
Qed.

(** One notification: it always returns, whatever the endpoint answers,
    after exactly one attempt and one reading of the clock. *)
Lemma push_event_to_klaviyo_runs email event_name w :
  ∃ lvl msg,
    push_event_to_klaviyo clock notifier email event_name w =
      (Ok (),
       World (file w) (writable w) (S (ticks w))
         (trace w ++
            [EvPost email event_name (clock (ticks w))
               (notifier (trace w) email event_name);
             EvLog lvl msg]))
    ∧ lvl ≠ WARNING.
Proof.
  unfold push_event_to_klaviyo, bind, utcnow, try_except, requests_post.
  simpl. destruct (notifier (trace w) email event_name) as [code|] eqn:Hr.
  - destruct (decide (code = 202)); unfold logging, record, tick; simpl;
      eexists _, _; (split; [by rewrite <-(assoc_L (++))|]); done.
  - unfold logging, record, tick; simpl.
    eexists _, _; (split; [by rewrite <-(assoc_L (++))|]); done.
Qed.

Lemma for_each_push xs event_name w :
  ∃ evs,
    for_each xs
      (λ email, push_event_to_klaviyo clock notifier email event_name) w =
      (Ok (),
       World (file w) (writable w) (ticks w + length xs) (trace w ++ evs))
    ∧ posts evs = (λ email, (email, event_name)) <$> xs
    ∧ writes evs = [] ∧ reads evs = 0 ∧ warnings evs = [].
Proof.
  revert w. induction xs as [|x xs IH]; intros w; simpl.
  - exists []. rewrite app_nil_r, Nat.add_0_r. by destruct w.
  - destruct (push_event_to_klaviyo_runs x event_name w)
      as (lvl & msg & Hrun & Hlvl).
    rewrite (bind_Ok _ _ _ _ _ Hrun).
    edestruct IH as (evs & -> & Hp & Hw & Hr & Hwarn).
    simpl. eexists (_ :: _ :: evs). split.
    + by rewrite <-(assoc_L (++)), Nat.add_succ_r.
    + unfold warnings in *. simpl. rewrite Hp.
      by destruct lvl.
Qed.

Lemma assoc_assign k k' v kv :
  Py.assoc k (Py.assign k' v kv) =
    if decide (k = k') then Some v else Py.assoc k kv.
Proof.
  induction kv as [|[k0 v0] kv IH]; simpl.
  - by destruct (decide (k = k')).
  - destruct (decide (k' = k0)) as [->|Hne]; simpl.
    + by destruct (decide (k = k0)).
    + destruct (decide (k = k0)) as [->|]; [|done].
      by rewrite decide_False by done.
Qed.

Lemma prior_members_shape f P :
  prior_members f = Some P →
  ∃ kv l, loaded_by_update f = Some (JObj kv)
          ∧ Py.assoc "profiles" kv = Some (JArr l)
          ∧ P = list_to_set l.
Proof.
  destruct f as [| | |doc]; simpl; try done.
  - intros [= <-]. by exists [("profiles", JArr []); ("last_updated", JNull)], [].
  - intros [= <-]. by exists [("profiles", JArr []); ("last_updated", JNull)], [].
  - destruct doc as [| | |kv]; simpl; try done.
    destruct (Py.assoc "profiles" kv) as [[| |l|]|] eqn:Hkv; simpl; try done.
    intros [= <-]. by exists kv, l.
Qed.

Lemma members_shape f P :
  members f = Some P →
  ∃ kv l, f = Stored (JObj kv)
          ∧ Py.assoc "profiles" kv = Some (JArr l)
          ∧ P = list_to_set l.
Proof.
  destruct f as [| | |doc]; simpl; try done.
  destruct doc as [| | |kv]; simpl; try done.
  destruct (Py.assoc "profiles" kv) as [[| |l|]|] eqn:Hkv; simpl; try done.
  intros [= <-]. by exists kv, l.
Qed.

(** The add phase on a well-shaped prior state. *)
Lemma update_cache_spec profiles w kv l :
  loaded_by_update (file w) = Some (JObj kv) →
  Py.assoc "profiles" kv = Some (JArr l) →
  writable w = true →
  let new := iter (list_to_set profiles ∖ list_to_set l) in
  (new = [] ∧
   update_cache clock notifier profiles w =
     (Ok (), World (file w) true (ticks w)
               (trace w ++ [EvRead; EvLog INFO NoNewProfiles])))
  ∨ (new ≠ [] ∧ ∃ evs,
     let doc := doc_after_update kv l new (clock (ticks w + length new)) in
     update_cache clock notifier profiles w =
       (Ok (), World (Stored doc) true (S (ticks w + length new))
                 (trace w ++ EvRead :: EvLog INFO (NewProfiles new) :: evs
                    ++ [EvWrite doc; EvLog INFO CacheUpdated]))
     ∧ posts evs = joined new
     ∧ writes evs = [] ∧ reads evs = 0 ∧ warnings evs = []).
Proof.
  intros Hload Hkv Hw new. unfold update_cache.
  assert (Hread : try_except load_cache
    (λ e, match e with
          | FileNotFoundError | JSONDecodeError =>
              Some (ret CACHE_FILE_default)
          | _ => None
          end) w = (Ok (JObj kv), record EvRead w)).
  { unfold try_except, load_cache, ret.
    destruct (file w); simpl in *; unfold CACHE_FILE_default in *;
      by simplify_eq. }
  rewrite (bind_Ok _ _ _ _ _ Hread).
  assert (Hdiff : lift (new_profiles_of profiles (JObj kv))
    (record EvRead w) = (Ok new, record EvRead w)).
  { unfold lift, new_profiles_of. simpl. by rewrite Hkv. }
  rewrite (bind_Ok _ _ _ _ _ Hdiff). clear Hdiff Hread. clearbody new.
  destruct new as [|x new'].
  - left. split; [done|]. unfold logging, record. simpl.
    by rewrite Hw, <-(assoc_L (++)).
  - right. split; [done|]. set (new := x :: new').
    unfold logging at 1, bind at 1.
    edestruct (for_each_push new "Joined Segment") as (evs & Hrun & Hrest).
    rewrite (bind_Ok _ _ _ _ _ Hrun). exists evs. split; [|done].
    unfold lift, bind, Py.extend_item, utcnow, dump_cache, logging,
      record, tick, set_file; simpl.
    rewrite Hkv. simpl. rewrite Hw.
    unfold doc_after_update. do 2 f_equal. cbn [trace].
    by rewrite <-!(assoc_L (++)).
Qed.

(** The removal phase on a stored, well-shaped record. *)
Lemma remove_stale_profiles_spec fetched w kv l :
  file w = Stored (JObj kv) →
  Py.assoc "profiles" kv = Some (JArr l) →
  writable w = true →
  let current : gset string := list_to_set l in
  let stale := stale_profiles_of fetched current in
  (stale = ∅ ∧
   remove_stale_profiles clock notifier fetched w =
     (Ok (), World (file w) true (ticks w)
               (trace w ++ [EvRead; EvLog INFO NoStaleProfiles])))
  ∨ (stale ≠ ∅ ∧ ∃ evs,
     let doc := doc_after_removal kv (iter (current ∖ stale))
                  (clock (ticks w + length (iter stale))) in
     remove_stale_profiles clock notifier fetched w =
       (Ok (), World (Stored doc) true (S (ticks w + length (iter stale)))
                 (trace w ++ EvRead :: EvLog INFO (StaleProfiles (iter stale))
                    :: evs ++ [EvWrite doc; EvLog INFO StaleUpdated]))
     ∧ posts evs = left (iter stale)
     ∧ writes evs = [] ∧ reads evs = 0 ∧ warnings evs = []).
Proof.
  intros Hfile Hkv Hw current stale. unfold remove_stale_profiles.
  assert (Hread : try_except (bind load_cache (λ cache, ret (Some cache)))
    (λ e, match e with
          | FileNotFoundError | JSONDecodeError =>
              Some (bind (logging WARNING CacheInvalid) (λ _, ret None))
          | _ => None
          end) w = (Ok (Some (JObj kv)), record EvRead w)).
  { unfold try_except, bind, load_cache, ret. by rewrite Hfile. }
  rewrite (bind_Ok _ _ _ _ _ Hread).
  assert (Hcur : lift (cached_profiles_of (JObj kv)) (record EvRead w) =
    (Ok current, record EvRead w)).
  { unfold lift, cached_profiles_of. simpl. by rewrite Hkv. }
  rewrite (bind_Ok _ _ _ _ _ Hcur). clear Hcur Hread. fold stale.
  destruct (decide (stale = ∅)) as [Hs|Hs].
  - left. split; [done|]. unfold logging, record. simpl.
    by rewrite Hw, <-(assoc_L (++)).
  - right. split; [done|].
    unfold logging at 1, bind at 1.
    edestruct (for_each_push (iter stale) "Left Segment")
      as (evs & Hrun & Hrest).
    rewrite (bind_Ok _ _ _ _ _ Hrun). exists evs. split; [|done].
    unfold lift, bind, utcnow, dump_cache, logging, record, tick, set_file;
      simpl.
    rewrite Hw. unfold doc_after_removal. do 2 f_equal. cbn [trace].
    by rewrite <-!(assoc_L (++)).
Qed.

(** The removal phase when the record is missing or undecodable: a
    warning, nothing else. *)
Lemma remove_stale_profiles_skips fetched w :
  file w = Missing ∨ file w = Garbage →
  remove_stale_profiles clock notifier fetched w =
    (Ok (), World (file w) (writable w) (ticks w)
              (trace w ++ [EvRead; EvLog WARNING CacheInvalid])).
Proof.
  intros Hfile. unfold remove_stale_profiles, try_except, bind, load_cache,
    logging, ret, record.
  destruct Hfile as [-> | ->]; simpl; by rewrite <-(assoc_L (++)).
Qed.

Lemma difference_empty_subseteq (X Y : gset string) : X ∖ Y = ∅ → X ⊆ Y.
Proof.
  intros Hempty x Hx. destruct (decide (x ∈ Y)) as [|Hy]; [done|].
  assert (x ∈ X ∖ Y) as Hin by (by apply elem_of_difference).
  rewrite Hempty in Hin. by apply not_elem_of_empty in Hin.
Qed.

Lemma union_difference_same (X Y : gset string) : X ∪ Y ∖ X = X ∪ Y.
Proof.
  apply set_eq. intros x. rewrite !elem_of_union, elem_of_difference.
  destruct (decide (x ∈ X)); naive_solver.
Qed.

Lemma difference_difference_same (X Y : gset string) :
  X ∖ (X ∖ Y) = X ∩ Y.
Proof.
  apply set_eq. intros x.
  rewrite elem_of_intersection, !elem_of_difference.
  destruct (decide (x ∈ Y)); naive_solver.
Qed.

Lemma iter_nil X : iter X = [] ↔ X = ∅.
Proof.
  split.
  - intros Hnil. apply set_eq. intros x.
    rewrite <-iter_elem_of, Hnil. set_solver.
  - intros ->. destruct (iter ∅) as [|x xs] eqn:Hx; [done|].
    assert (x ∈ (∅ : gset string)); [|set_solver].
    apply iter_elem_of. rewrite Hx. by left.
Qed.

Lemma iter_Permutation X : iter X ≡ₚ elements X.
Proof.
  apply NoDup_Permutation.
  - apply iter_NoDup.
  - apply NoDup_elements.
  - intros x. by rewrite iter_elem_of, elem_of_elements.
Qed.

Lemma length_iter X : length (iter X) = size X.
Proof. by rewrite iter_Permutation. Qed.

Lemma list_to_set_iter X : list_to_set (iter X) = X.
Proof.
  apply set_eq. intros x. by rewrite elem_of_list_to_set, iter_elem_of.
Qed.

Lemma joined_nil xs : joined xs = [] ↔ xs = [].
Proof. by destruct xs. Qed.

Lemma left_nil xs : left xs = [] ↔ xs = [].
Proof. by destruct xs. Qed.

Lemma doc_profiles_after_update kv l new now :
  doc_profiles (doc_after_update kv l new now) = Some (l ++ new).
Proof.
  unfold doc_after_update. simpl. by rewrite !assoc_assign.
Qed.

Lemma doc_profiles_after_removal kv kept now :
  doc_profiles (doc_after_removal kv kept now) = Some kept.
Proof.
  unfold doc_after_removal. simpl. by rewrite !assoc_assign.
Qed.

Lemma doc_last_updated_after_update kv l new now :
  doc_last_updated (doc_after_update kv l new now) = Some (JStr now).
Proof.
  unfold doc_after_update. simpl. by rewrite assoc_assign.
Qed.

Lemma doc_last_updated_after_removal kv kept now :
  doc_last_updated (doc_after_removal kv kept now) = Some (JStr now).
Proof.
  unfold doc_after_removal. simpl. by rewrite assoc_assign.
Qed.

End Basics.

(** ** The two phases of a cycle *)

Section Phases.

Context {order : SetOrder}.
Variable clock : nat → string.
Variable notifier : list event → string → string → reply.

Lemma update_cache_phase profiles w P :
  prior_members (file w) = Some P →
  writable w = true →
  ∃ w1 evs,
    update_cache clock notifier profiles w = (Ok (), w1)
    ∧ phase clock w w1 evs (joined (iter (list_to_set profiles ∖ P)))
    ∧ prior_members (file w1) = Some (P ∪ list_to_set profiles)
    ∧ (profiles ≠ [] → members (file w1) = Some (P ∪ list_to_set profiles)).
Proof.
  intros HP Hw.
  destruct (prior_members_shape _ _ HP) as (kv & l & Hload & Hkv & ->).
  destruct (update_cache_spec clock notifier profiles w kv l Hload Hkv Hw)
    as [[Hnil Hrun] | [Hnew (evs & Hrun & Hposts & Hwr & Hrd & Hwarn)]].
  - eexists _, _. split; [exact Hrun|].
    apply iter_nil in Hnil as Hempty.
    assert (Hsame : list_to_set l ∪ list_to_set profiles
                    = (list_to_set l : gset string)).
    { rewrite (comm_L (∪)).
      apply subseteq_union_1_L, difference_empty_subseteq, Hempty. }
    rewrite Hnil, Hsame. split; [|split].
    + split; simpl; rewrite ?Hw; done.
    + done.
    + intros Hne. destruct profiles as [|x profiles]; [done|].
      assert (x ∈ (list_to_set l : gset string)) as Hx.
      { apply (difference_empty_subseteq _ _ Hempty). set_solver. }
      destruct (file w); simpl in *; unfold CACHE_FILE_default in *;
        simplify_eq; set_solver.
  - eexists _, _. split; [exact Hrun|].
    cbn [file prior_members members]. split; [|split].
    + split; cbn [trace file ticks writable]; try done.
      * split_trace. by rewrite !posts_app, Hposts, app_nil_r.
      * split_trace. by rewrite !reads_app, Hrd.
      * split_trace. by rewrite !warnings_app, Hwarn.
      * split_trace.
        by rewrite writes_come_last_app, writes_come_last_app.
      * intros Hd. by apply joined_nil in Hd.
      * intros _. eexists. split; [done|].
        split_trace. rewrite !writes_app, Hwr. split; [done|].
        rewrite doc_last_updated_after_update. simpl. split; [done|lia].
    + rewrite doc_profiles_after_update. simpl. f_equal.
      by rewrite list_to_set_app_L, list_to_set_iter, union_difference_same.
    + intros _. rewrite doc_profiles_after_update. simpl. f_equal.
      by rewrite list_to_set_app_L, list_to_set_iter, union_difference_same.
Qed.

Lemma remove_stale_profiles_phase fetched w C :
  members (file w) = Some C →
  writable w = true →
  ∃ w2 evs,
    remove_stale_profiles clock notifier fetched w = (Ok (), w2)
    ∧ phase clock w w2 evs (left (iter (C ∖ list_to_set fetched)))
    ∧ members (file w2) = Some (C ∩ list_to_set fetched).
Proof.
  intros HC Hw.
  destruct (members_shape _ _ HC) as (kv & l & Hfile & Hkv & ->).
  destruct (remove_stale_profiles_spec clock notifier fetched w kv l
              Hfile Hkv Hw)
    as [[Hnil Hrun] | [Hnew (evs & Hrun & Hposts & Hwr & Hrd & Hwarn)]];
    unfold stale_profiles_of in *.
  - eexists _, _. split; [exact Hrun|]. rewrite Hnil.
    assert (Hsame : list_to_set l ∩ list_to_set fetched
                    = (list_to_set l : gset string)).
    { apply subseteq_intersection_1_L, difference_empty_subseteq, Hnil. }
    rewrite Hsame, (proj2 (iter_nil _) eq_refl). split.
    + split; simpl; rewrite ?Hw; done.
    + done.
  - eexists _, _. split; [exact Hrun|].
    cbn [file prior_members members]. split.
    + split; cbn [trace file ticks writable]; try done.
      * split_trace. by rewrite !posts_app, Hposts, app_nil_r.
      * split_trace. by rewrite !reads_app, Hrd.
      * split_trace. by rewrite !warnings_app, Hwarn.
      * split_trace.
        by rewrite writes_come_last_app, writes_come_last_app.
      * intros Hd. apply left_nil, iter_nil in Hd. done.
      * intros _. eexists. split; [done|].
        split_trace. rewrite !writes_app, Hwr. split; [done|].
        rewrite doc_last_updated_after_removal. simpl. split; [done|lia].
    + rewrite doc_profiles_after_removal. simpl. f_equal.
      by rewrite list_to_set_iter, difference_difference_same.
Qed.

End Phases.

(** ** A whole run *)

Section Run.

Context {order : SetOrder}.
Variable clock : nat → string.
Variable notifier : list event → string → string → reply.

(** Fetching never touches the store, the clock or the events endpoint,
    and its result does not depend on the world it runs in. *)
Lemma fetch_pages_spec src acc :
  ∃ r evs,
    (∀ w, fetch_pages src acc w =
            (r, World (file w) (writable w) (ticks w) (trace w ++ evs)))
    ∧ posts evs = [] ∧ writes evs = [] ∧ reads evs = 0 ∧ warnings evs = []
    ∧ (∀ x xs, r = Ok (x :: xs) → evs = []).
Proof.
  revert acc. induction src as [emails|emails next IH|status|]; intros acc.
  - exists (Ok (acc ++ emails)), []. split; [|done].
    intros [????]. unfold ret. simpl. by rewrite app_nil_r.
  - apply IH.
  - exists (Ok []), [EvLog ERROR (FetchFailed status)]. by split.
  - exists (Raise RequestException), []. split; [|done].
    intros [????]. unfold raise. simpl. by rewrite app_nil_r.
Qed.

Lemma fetch_profiles_nonempty src w profiles :
  (fetch_profiles src w).1 = Ok profiles → profiles ≠ [] →
  ∀ w', fetch_profiles src w' = (Ok profiles, w').
Proof.
  intros Hfetch Hne w'. unfold fetch_profiles in *.
  destruct (fetch_pages_spec src []) as (r & evs & Hrun & _ & _ & _ & _ & He).
  rewrite Hrun in Hfetch. simpl in Hfetch. subst r.
  destruct profiles as [|x xs]; [done|].
  rewrite Hrun, (He x xs eq_refl), app_nil_r. by destruct w'.
Qed.

Lemma main_nonempty src w profiles :
  (fetch_profiles src w).1 = Ok profiles → profiles ≠ [] →
  main clock notifier src w =
    bind (update_cache clock notifier profiles)
      (λ _, remove_stale_profiles clock notifier profiles) w.
Proof.
  intros Hfetch Hne. unfold main.
  rewrite (bind_Ok _ _ _ _ _ (fetch_profiles_nonempty _ _ _ Hfetch Hne w)).
  by destruct profiles.
Qed.

(** One reconciliation cycle from a well-shaped prior state. *)
Lemma cycle_spec src w profiles P :
  (fetch_profiles src w).1 = Ok profiles → profiles ≠ [] →
  prior_members (file w) = Some P →
  writable w = true →
  ∃ w1 w2 evs1 evs2,
    update_cache clock notifier profiles w = (Ok (), w1)
    ∧ remove_stale_profiles clock notifier profiles w1 = (Ok (), w2)
    ∧ main clock notifier src w = (Ok (), w2)
    ∧ phase clock w w1 evs1 (joined (iter (list_to_set profiles ∖ P)))
    ∧ phase clock w1 w2 evs2 (left (iter (P ∖ list_to_set profiles)))
    ∧ members (file w1) = Some (P ∪ list_to_set profiles)
    ∧ members (file w2) = Some (list_to_set profiles).
Proof.
  intros Hfetch Hne HP Hw.
  destruct (update_cache_phase clock notifier profiles w P HP Hw)
    as (w1 & evs1 & Hrun1 & Hph1 & _ & Hm1).
  specialize (Hm1 Hne).
  assert (Hw1 : writable w1 = true) by (by rewrite (phase_writable _ _ _ _ _ Hph1)).
  destruct (remove_stale_profiles_phase clock notifier profiles w1 _ Hm1 Hw1)
    as (w2 & evs2 & Hrun2 & Hph2 & Hm2).
  exists w1, w2, evs1, evs2.
  assert (Hstale : (P ∪ list_to_set profiles) ∖ list_to_set profiles
                   = P ∖ (list_to_set profiles : gset string)) by set_solver.
  assert (Hkept : (P ∪ list_to_set profiles) ∩ list_to_set profiles
                  = (list_to_set profiles : gset string)) by set_solver.
  rewrite Hstale in Hph2. rewrite Hkept in Hm2.
  split_and!; try done.
  rewrite (main_nonempty _ _ _ Hfetch Hne).
  by rewrite (bind_Ok _ _ _ _ _ Hrun1).
Qed.

End Run.

(** ** Properties of the reconciliation *)

Section Reconciliation.

Context {order : SetOrder}.
Variable clock : nat → string.
Variable notifier : list event → string → string → reply.

Lemma attempts_joined_left tr xs ys :
  posts tr = joined xs ++ left ys →
  attempts "Joined Segment" tr = xs ∧ attempts "Left Segment" tr = ys.
Proof.
  intros Htr. unfold attempts. rewrite Htr, !filter_app.
  assert (Hjj : ∀ zs, filter (λ p : string * string, p.2 = "Joined Segment")
                        (joined zs) = joined zs).
  { induction zs as [|z zs IH]; [done|]. simpl.
    rewrite filter_cons_True by done. by f_equal. }
  assert (Hjl : ∀ zs, filter (λ p : string * string, p.2 = "Joined Segment")
                        (left zs) = []).
  { induction zs as [|z zs IH]; [done|]. simpl.
    by rewrite filter_cons_False. }
  assert (Hlj : ∀ zs, filter (λ p : string * string, p.2 = "Left Segment")
                        (joined zs) = []).
  { induction zs as [|z zs IH]; [done|]. simpl.
    by rewrite filter_cons_False. }
  assert (Hll : ∀ zs, filter (λ p : string * string, p.2 = "Left Segment")
                        (left zs) = left zs).
  { induction zs as [|z zs IH]; [done|]. simpl.
    rewrite filter_cons_True by done. by f_equal. }
  rewrite Hjj, Hjl, Hlj, Hll, app_nil_r. simpl.
  unfold joined, left. rewrite <-!list_fmap_compose.
  split; apply list_fmap_id.
Qed.

(** The events of a cycle are those of its two phases, in order. *)
Lemma cycle_trace w w1 w2 evs1 evs2 d1 d2 :
  phase clock w w1 evs1 d1 → phase clock w1 w2 evs2 d2 →
  trace w2 = trace w ++ (evs1 ++ evs2) ∧ posts (evs1 ++ evs2) = d1 ++ d2.
Proof.
  intros [Ht1 Hp1 _ _ _ _ _ _] [Ht2 Hp2 _ _ _ _ _ _].
  by rewrite Ht2, Ht1, posts_app, Hp1, Hp2, (assoc_L (++)).
Qed.

(** C1 — Convergence.  From any well-shaped prior state, whatever its
    member set [P], one full cycle on a non-empty fetched list (the store
    accepting writes) completes and leaves a record whose member set is
    exactly the fetched set. *)
Theorem convergence src w profiles P :
  (fetch_profiles src w).1 = Ok profiles →
  profiles ≠ [] →
  prior_members (file w) = Some P →
  writable w = true →
  ∃ w', main clock notifier src w = (Ok (), w')
        ∧ members (file w') = Some (list_to_set profiles).
Proof.
  intros Hfetch Hne HP Hw.
  destruct (cycle_spec clock notifier src w profiles P Hfetch Hne HP Hw)
    as (w1 & w2 & evs1 & evs2 & _ & _ & Hmain & _ & _ & _ & Hm).
  by exists w2.
Qed.

(** C2 — Diff correctness.  In a run, the list the add phase computes
    from the cache it loaded holds exactly the identities of fetched −
    prior, each once, and these are the identities it notifies as joined
    and adds to the record; the set the removal phase computes from the
    record as the add phase left it, which holds prior ∪ fetched, is
    exactly prior − fetched, and these are the identities it notifies as
    left and takes out of the record. *)
Theorem diff_correct src w profiles P :
  (fetch_profiles src w).1 = Ok profiles →
  profiles ≠ [] →
  prior_members (file w) = Some P →
  writable w = true →
  ∃ cache new_profiles w1 evs1 doc1 current w2 evs2,
    loaded_by_update (file w) = Some cache
    ∧ new_profiles_of profiles cache = Ok new_profiles
    ∧ new_profiles = iter (list_to_set profiles ∖ P)
    ∧ NoDup new_profiles
    ∧ list_to_set new_profiles = list_to_set profiles ∖ P
    ∧ update_cache clock notifier profiles w = (Ok (), w1)
    ∧ trace w1 = trace w ++ evs1
    ∧ posts evs1 = joined new_profiles
    ∧ file w1 = Stored doc1
    ∧ cached_profiles_of doc1 = Ok current
    ∧ current = P ∪ list_to_set profiles
    ∧ stale_profiles_of profiles current = P ∖ list_to_set profiles
    ∧ remove_stale_profiles clock notifier profiles w1 = (Ok (), w2)
    ∧ trace w2 = trace w1 ++ evs2
    ∧ posts evs2 = left (iter (stale_profiles_of profiles current))
    ∧ members (file w2)
      = Some (list_to_set profiles ∖ stale_profiles_of profiles current)
    ∧ members (file w2) = Some (list_to_set profiles)
    ∧ main clock notifier src w = (Ok (), w2).
Proof.
  intros Hfetch Hne HP Hw.
  destruct (prior_members_shape _ _ HP) as (kv & l & Hload & Hkv & HPl).
  destruct (cycle_spec clock notifier src w profiles P Hfetch Hne HP Hw)
    as (w1 & w2 & evs1 & evs2 & Hrun1 & Hrun2 & Hmain & Hph1 & Hph2
        & Hm1 & Hm2).
  destruct (members_shape _ _ Hm1) as (kv1 & l1 & Hfile1 & Hkv1 & Hl1).
  assert (Hstale : stale_profiles_of profiles (list_to_set l1)
                   = P ∖ list_to_set profiles).
  { unfold stale_profiles_of. rewrite <-Hl1. set_solver. }
  exists (JObj kv), (iter (list_to_set profiles ∖ P)), w1, evs1,
    (JObj kv1), (list_to_set l1), w2, evs2.
  split_and!; try done.
  - unfold new_profiles_of. simpl. by rewrite Hkv, HPl.
  - apply iter_NoDup.
  - apply list_to_set_iter.
  - apply Hph1.
  - apply Hph1.
  - unfold cached_profiles_of. simpl. by rewrite Hkv1.
  - apply Hph2.
  - rewrite Hstale. apply Hph2.
  - rewrite Hstale, Hm2. f_equal. set_solver.
Qed.

Lemma elem_of_joined x name xs :
  (x, name) ∈ joined xs ↔ name = "Joined Segment" ∧ x ∈ xs.
Proof. unfold joined. rewrite list_elem_of_fmap. naive_solver. Qed.

Lemma elem_of_left x name xs :
  (x, name) ∈ left xs ↔ name = "Left Segment" ∧ x ∈ xs.
Proof. unfold left. rewrite list_elem_of_fmap. naive_solver. Qed.

Lemma NoDup_joined_left xs ys :
  NoDup xs → NoDup ys → NoDup (joined xs ++ left ys).
Proof.
  intros Hxs Hys. apply NoDup_app. split_and!.
  - apply NoDup_fmap_2; [|done]. by intros ?? [= ->].
  - intros [x name] [-> _]%elem_of_joined [? _]%elem_of_left. done.
  - apply NoDup_fmap_2; [|done]. by intros ?? [= ->].
Qed.

Lemma elem_of_posts email event_name timestamp r tr :
  EvPost email event_name timestamp r ∈ tr → (email, event_name) ∈ posts tr.
Proof.
  intros Hin. unfold posts. apply list_elem_of_omap.
  by exists (EvPost email event_name timestamp r).
Qed.

(** C6 — Notification-per-delta.  In a reconciling run the joined
    attempts are, up to order, the elements of fetched − prior, the left
    attempts those of prior − fetched, each identity once; their numbers
    are the two cardinalities, and there is no other attempt. *)
Theorem notification_per_delta src w profiles P :
  (fetch_profiles src w).1 = Ok profiles →
  profiles ≠ [] →
  prior_members (file w) = Some P →
  writable w = true →
  let added : gset string := list_to_set profiles ∖ P in
  let removed : gset string := P ∖ list_to_set profiles in
  ∃ w' evs,
    main clock notifier src w = (Ok (), w')
    ∧ trace w' = trace w ++ evs
    ∧ attempts "Joined Segment" evs ≡ₚ elements added
    ∧ attempts "Left Segment" evs ≡ₚ elements removed
    ∧ length (attempts "Joined Segment" evs) = size added
    ∧ length (attempts "Left Segment" evs) = size removed
    ∧ length (posts evs) = size added + size removed
    ∧ (∀ x event_name,
         (x, event_name) ∈ posts evs →
         (event_name = "Joined Segment" ∧ x ∈ added)
         ∨ (event_name = "Left Segment" ∧ x ∈ removed)).
Proof.
  intros Hfetch Hne HP Hw added removed.
  destruct (cycle_spec clock notifier src w profiles P Hfetch Hne HP Hw)
    as (w1 & w2 & evs1 & evs2 & _ & _ & Hmain & Hph1 & Hph2 & _ & _).
  destruct (cycle_trace _ _ _ _ _ _ _ Hph1 Hph2) as [Htr Hposts].
  fold added removed in Hposts.
  exists w2, (evs1 ++ evs2).
  destruct (attempts_joined_left _ _ _ Hposts) as [-> ->].
  split_and!; try done.
  - apply iter_Permutation.
  - apply iter_Permutation.
  - apply length_iter.
  - apply length_iter.
  - rewrite Hposts, length_app. unfold joined, left.
    by rewrite !length_fmap, !length_iter.
  - intros x name. rewrite Hposts, elem_of_app, elem_of_joined, elem_of_left.
    rewrite !iter_elem_of. tauto.
Qed.

(** C7 — Notification-failure isolation.  Whatever the endpoint answers
    to each request, failures included, the run completes; every identity
    of the added and of the removed set is attempted, and no attempt is
    made twice; the record ends as the fetched set, so that an identity
    whose event failed is recorded as a member if it was joining and as
    gone if it was leaving. *)
Theorem notification_failure_isolated src w profiles P :
  (fetch_profiles src w).1 = Ok profiles →
  profiles ≠ [] →
  prior_members (file w) = Some P →
  writable w = true →
  let added : gset string := list_to_set profiles ∖ P in
  let removed : gset string := P ∖ list_to_set profiles in
  ∃ w' evs M,
    main clock notifier src w = (Ok (), w')
    ∧ trace w' = trace w ++ evs
    ∧ members (file w') = Some M
    ∧ M = list_to_set profiles
    ∧ NoDup (posts evs)
    ∧ (∀ x, x ∈ added → (x, "Joined Segment") ∈ posts evs)
    ∧ (∀ x, x ∈ removed → (x, "Left Segment") ∈ posts evs)
    ∧ (∀ x event_name timestamp r,
         EvPost x event_name timestamp r ∈ evs →
         r ≠ Status 202 →
         (event_name = "Joined Segment" ∧ x ∈ added ∧ x ∈ M)
         ∨ (event_name = "Left Segment" ∧ x ∈ removed ∧ x ∉ M)).
Proof.
  intros Hfetch Hne HP Hw added removed.
  destruct (cycle_spec clock notifier src w profiles P Hfetch Hne HP Hw)
    as (w1 & w2 & evs1 & evs2 & _ & _ & Hmain & Hph1 & Hph2 & _ & Hm).
  destruct (cycle_trace _ _ _ _ _ _ _ Hph1 Hph2) as [Htr Hposts].
  fold added removed in Hposts.
  exists w2, (evs1 ++ evs2), (list_to_set profiles).
  split_and!; try done.
  - rewrite Hposts. apply NoDup_joined_left; apply iter_NoDup.
  - intros x Hx. rewrite Hposts, elem_of_app, elem_of_joined, iter_elem_of.
    by left.
  - intros x Hx. rewrite Hposts, elem_of_app, elem_of_left, iter_elem_of.
    by right.
  - intros x name ts r Hin _. apply elem_of_posts in Hin.
    rewrite Hposts, elem_of_app, elem_of_joined, elem_of_left in Hin.
    rewrite !iter_elem_of in Hin. unfold added, removed in *.
    destruct Hin as [[-> Hx]|[-> Hx]]; [left|right];
      (split; [done|]); (split; [done|]); set_solver.
Qed.

(** C8 — Idempotence.  After a first run on a non-empty fetched list, a
    second run on the same list finds the two differences empty against
    the record the first run left, attempts no notification and writes
    nothing. *)
Theorem idempotence src w profiles P :
  (fetch_profiles src w).1 = Ok profiles →
  profiles ≠ [] →
  prior_members (file w) = Some P →
  writable w = true →
  ∃ w1 doc1 current w2 evs,
    main clock notifier src w = (Ok (), w1)
    ∧ file w1 = Stored doc1
    ∧ new_profiles_of profiles doc1 = Ok []
    ∧ cached_profiles_of doc1 = Ok current
    ∧ stale_profiles_of profiles current = ∅
    ∧ main clock notifier src w1 = (Ok (), w2)
    ∧ trace w2 = trace w1 ++ evs
    ∧ posts evs = []
    ∧ writes evs = []
    ∧ file w2 = file w1.
Proof.
  intros Hfetch Hne HP Hw.
  destruct (cycle_spec clock notifier src w profiles P Hfetch Hne HP Hw)
    as (v1 & w1 & e1 & e2 & _ & _ & Hmain & Hph1 & Hph2 & _ & Hm).
  assert (Hw1 : writable w1 = true).
  { by rewrite (phase_writable _ _ _ _ _ Hph2),
      (phase_writable _ _ _ _ _ Hph1). }
  destruct (members_shape _ _ Hm) as (kv & l & Hfile & Hkv & HF).
  assert (HP1 : prior_members (file w1) = Some (list_to_set profiles)).
  { by rewrite Hfile, <-Hm, Hfile. }
  assert (Hfetch1 : (fetch_profiles src w1).1 = Ok profiles).
  { by rewrite (fetch_profiles_nonempty _ _ _ Hfetch Hne w1). }
  destruct (cycle_spec clock notifier src w1 profiles _ Hfetch1 Hne HP1 Hw1)
    as (v2 & w2 & evs1 & evs2 & _ & _ & Hmain2 & Hq1 & Hq2 & _ & _).
  rewrite difference_diag_L, (proj2 (iter_nil _) eq_refl) in Hq1, Hq2.
  destruct (cycle_trace _ _ _ _ _ _ _ Hq1 Hq2) as [Htr Hposts].
  destruct (phase_idle _ _ _ _ _ Hq1 eq_refl) as (Hf1 & _ & Hwr1).
  destruct (phase_idle _ _ _ _ _ Hq2 eq_refl) as (Hf2 & _ & Hwr2).
  exists w1, (JObj kv), (list_to_set l), w2, (evs1 ++ evs2).
  split_and!; try done.
  - unfold new_profiles_of. simpl. rewrite Hkv. simpl.
    by rewrite HF, difference_diag_L, (proj2 (iter_nil _) eq_refl).
  - unfold cached_profiles_of. simpl. by rewrite Hkv.
  - unfold stale_profiles_of. by rewrite HF, difference_diag_L.
  - by rewrite writes_app, Hwr1, Hwr2.
  - by rewrite Hf2, Hf1.
Qed.

(** C9 — last_updated change discipline.  When both differences are
    empty the run writes nothing and the record, its last_updated
    included, is the prior one; when either is non-empty the run writes,
    and the record it leaves is stamped with the last reading of the
    clock made in the run, the one taken for that write. *)
Theorem last_updated_discipline src w profiles P :
  (fetch_profiles src w).1 = Ok profiles →
  profiles ≠ [] →
  prior_members (file w) = Some P →
  writable w = true →
  let added : gset string := list_to_set profiles ∖ P in
  let removed : gset string := P ∖ list_to_set profiles in
  ∃ w' evs,
    main clock notifier src w = (Ok (), w')
    ∧ trace w' = trace w ++ evs
    ∧ (added = ∅ ∧ removed = ∅ →
         writes evs = [] ∧ file w' = file w
         ∧ last_updated (file w') = last_updated (file w))
    ∧ (added ≠ ∅ ∨ removed ≠ ∅ →
         writes evs ≠ [] ∧ ticks w < ticks w'
         ∧ last_updated (file w')
           = Some (JStr (clock (pred (ticks w'))))).
Proof.
  intros Hfetch Hne HP Hw added removed.
  destruct (cycle_spec clock notifier src w profiles P Hfetch Hne HP Hw)
    as (w1 & w2 & evs1 & evs2 & _ & _ & Hmain & Hph1 & Hph2 & _ & _).
  destruct (cycle_trace _ _ _ _ _ _ _ Hph1 Hph2) as [Htr _].
  fold added in Hph1. fold removed in Hph2.
  exists w2, (evs1 ++ evs2). split_and!; try done.
  - intros [Ha Hr]. rewrite Ha, (proj2 (iter_nil _) eq_refl) in Hph1.
    rewrite Hr, (proj2 (iter_nil _) eq_refl) in Hph2.
    destruct (phase_idle _ _ _ _ _ Hph1 eq_refl) as (Hf1 & _ & Hwr1).
    destruct (phase_idle _ _ _ _ _ Hph2 eq_refl) as (Hf2 & _ & Hwr2).
    by rewrite writes_app, Hwr1, Hwr2, Hf2, Hf1.
  - intros Hchange. destruct (decide (removed = ∅)) as [Hr|Hr].
    + destruct Hchange as [Ha|]; [|done].
      rewrite Hr, (proj2 (iter_nil _) eq_refl) in Hph2.
      destruct (phase_idle _ _ _ _ _ Hph2 eq_refl) as (Hf2 & Ht2 & Hwr2).
      destruct (phase_change _ _ _ _ _ Hph1) as (doc & Hf1 & Hwr1 & Hlu & Hlt).
      { by rewrite joined_nil, iter_nil. }
      rewrite writes_app, Hwr1, Hwr2, Hf2, Hf1, Ht2. by simpl.
    + destruct (phase_change _ _ _ _ _ Hph2) as (doc & Hf2 & Hwr2 & Hlu & Hlt).
      { by rewrite left_nil, iter_nil. }
      rewrite writes_app, Hwr2, Hf2. simpl. split_and!; [|  |done].
      * by destruct (writes evs1).
      * destruct (decide (added = ∅)) as [Ha|Ha].
        -- rewrite Ha, (proj2 (iter_nil _) eq_refl) in Hph1.
           destruct (phase_idle _ _ _ _ _ Hph1 eq_refl) as (_ & Ht1 & _).
           lia.
        -- destruct (phase_change _ _ _ _ _ Hph1) as (? & _ & _ & _ & Hlt1).
           { by rewrite joined_nil, iter_nil. }
           lia.
Qed.

(** C3, as the code has it — Store discipline, phase by phase.  Each of
    the two phases reads the record once, attempts its notifications, and
    then writes once exactly when its own difference is not empty; a run
    therefore reads twice and writes between zero and two times, the add
    phase's write coming before the removal phase's notifications. *)
Theorem store_discipline_per_phase src w profiles P :
  (fetch_profiles src w).1 = Ok profiles →
  profiles ≠ [] →
  prior_members (file w) = Some P →
  writable w = true →
  let added : gset string := list_to_set profiles ∖ P in
  let removed : gset string := P ∖ list_to_set profiles in
  ∃ w1 w2 evs1 evs2,
    update_cache clock notifier profiles w = (Ok (), w1)
    ∧ trace w1 = trace w ++ evs1
    ∧ remove_stale_profiles clock notifier profiles w1 = (Ok (), w2)
    ∧ trace w2 = trace w1 ++ evs2
    ∧ main clock notifier src w = (Ok (), w2)
    ∧ reads evs1 = 1 ∧ reads evs2 = 1
    ∧ length (writes evs1) = (if decide (added = ∅) then 0 else 1)
    ∧ length (writes evs2) = (if decide (removed = ∅) then 0 else 1)
    ∧ writes_come_last evs1 = true ∧ writes_come_last evs2 = true
    ∧ attempts "Left Segment" evs1 = []
    ∧ attempts "Joined Segment" evs2 = []
    ∧ reads (evs1 ++ evs2) = 2
    ∧ (length (writes (evs1 ++ evs2)) ≤ 2)%nat.
Proof.
  intros Hfetch Hne HP Hw added removed.
  destruct (cycle_spec clock notifier src w profiles P Hfetch Hne HP Hw)
    as (w1 & w2 & evs1 & evs2 & Hrun1 & Hrun2 & Hmain & Hph1 & Hph2 & _ & _).
  fold added in Hph1. fold removed in Hph2.
  assert (Hw1 : length (writes evs1) = if decide (added = ∅) then 0 else 1).
  { destruct (decide (added = ∅)) as [Ha|Ha].
    - rewrite Ha, (proj2 (iter_nil _) eq_refl) in Hph1.
      by destruct (phase_idle _ _ _ _ _ Hph1 eq_refl) as (_ & _ & ->).
    - destruct (phase_change _ _ _ _ _ Hph1) as (? & _ & -> & _); [|done].
      by rewrite joined_nil, iter_nil. }
  assert (Hw2 : length (writes evs2) = if decide (removed = ∅) then 0 else 1).
  { destruct (decide (removed = ∅)) as [Hr|Hr].
    - rewrite Hr, (proj2 (iter_nil _) eq_refl) in Hph2.
      by destruct (phase_idle _ _ _ _ _ Hph2 eq_refl) as (_ & _ & ->).
    - destruct (phase_change _ _ _ _ _ Hph2) as (? & _ & -> & _); [|done].
      by rewrite left_nil, iter_nil. }
  exists w1, w2, evs1, evs2. split_and!; try done.
  - apply Hph1.
  - apply Hph2.
  - apply Hph1.
  - apply Hph2.
  - apply Hph1.
  - apply Hph2.
  - apply (attempts_joined_left evs1 (iter added) []).
    rewrite app_nil_r. apply Hph1.
  - apply (attempts_joined_left evs2 [] (iter removed)). apply Hph2.
  - rewrite reads_app. by rewrite (phase_reads _ _ _ _ _ Hph1),
      (phase_reads _ _ _ _ _ Hph2).
  - rewrite writes_app, length_app, Hw1, Hw2.
    destruct (decide (added = ∅)), (decide (removed = ∅)); lia.
Qed.

(** Notifications do not look at the cache file. *)
Lemma push_event_to_klaviyo_set_file f email event_name w :
  push_event_to_klaviyo clock notifier email event_name (set_file f w) =
    ((push_event_to_klaviyo clock notifier email event_name w).1,
     set_file f (push_event_to_klaviyo clock notifier email event_name w).2).
Proof.
  unfold push_event_to_klaviyo, bind, utcnow, try_except, requests_post.
  simpl. destruct (notifier (trace w) email event_name) as [code|]; simpl.
  - by destruct (decide (code = 202)).
  - done.
Qed.

Lemma for_each_push_set_file f xs event_name w :
  let body := λ email, push_event_to_klaviyo clock notifier email event_name in
  for_each xs body (set_file f w) =
    ((for_each xs body w).1, set_file f (for_each xs body w).2).
Proof.
  intros body. revert w. induction xs as [|x xs IH]; intros w; [done|].
  simpl. unfold bind. unfold body at 1 3 5.
  rewrite push_event_to_klaviyo_set_file.
  destruct (push_event_to_klaviyo clock notifier x event_name w)
    as [[[]|e] w']; simpl; [apply IH|done].
Qed.

Lemma update_cache_as_default profiles w :
  file w = Missing ∨ file w = Garbage →
  writable w = true →
  profiles ≠ [] →
  update_cache clock notifier profiles w
  = update_cache clock notifier profiles
      (set_file (Stored CACHE_FILE_default) w).
Proof.
  intros Hfile Hw Hne. set (f := Stored CACHE_FILE_default).
  set (h := λ e, match e with
                 | FileNotFoundError | JSONDecodeError =>
                     Some (ret CACHE_FILE_default)
                 | _ => None
                 end).
  assert (Hread : try_except load_cache h w
                  = (Ok CACHE_FILE_default, record EvRead w)).
  { unfold try_except, load_cache. by destruct Hfile as [-> | ->]. }
  assert (Hread0 : try_except load_cache h (set_file f w)
                   = (Ok CACHE_FILE_default, set_file f (record EvRead w)))
    by done.
  unfold update_cache. fold h.
  rewrite (bind_Ok _ _ _ _ _ Hread), (bind_Ok _ _ _ _ _ Hread0).
  assert (Hdiff : ∀ v, lift (new_profiles_of profiles CACHE_FILE_default) v
                       = (Ok (iter (list_to_set profiles ∖ ∅)), v)) by done.
  rewrite !(bind_Ok _ _ _ _ _ (Hdiff _)). clear Hdiff.
  destruct (iter (list_to_set profiles ∖ ∅)) as [|x new'] eqn:Hnew.
  { apply iter_nil in Hnew. destruct profiles; [done|set_solver]. }
  set (new := x :: new'). set (v := record EvRead w).
  set (body := λ email,
         push_event_to_klaviyo clock notifier email "Joined Segment").
  rewrite (bind_Ok (logging INFO (NewProfiles new)) _ v ()
             (record (EvLog INFO (NewProfiles new)) v) eq_refl).
  rewrite (bind_Ok (logging INFO (NewProfiles new)) _ (set_file f v) ()
             (set_file f (record (EvLog INFO (NewProfiles new)) v)) eq_refl).
  destruct (for_each_push clock notifier new "Joined Segment"
              (record (EvLog INFO (NewProfiles new)) v))
    as (evs & Hrun & _).
  fold body in Hrun.
  pose proof (for_each_push_set_file f new "Joined Segment"
                (record (EvLog INFO (NewProfiles new)) v)) as Hrun0.
  cbv zeta in Hrun0. fold body in Hrun0. rewrite Hrun in Hrun0.
  rewrite (bind_Ok _ _ _ _ _ Hrun), (bind_Ok _ _ _ _ _ Hrun0).
  unfold lift, bind, Py.extend_item, utcnow, dump_cache, logging,
    record, tick, set_file; simpl.
  by rewrite Hw.
Qed.

(** C4, as the code has it — Recovery from a missing or undecodable
    record.  The add phase then runs exactly as it does on the stored
    empty default: it completes, and with a non-empty fetched list the
    two executions end in the same world.  The removal phase logs one
    warning and returns, touching nothing. *)
Theorem load_recovers_missing_or_undecodable profiles w :
  file w = Missing ∨ file w = Garbage →
  writable w = true →
  let w0 := set_file (Stored CACHE_FILE_default) w in
  (update_cache clock notifier profiles w).1 = Ok ()
  ∧ (update_cache clock notifier profiles w0).1 = Ok ()
  ∧ trace (update_cache clock notifier profiles w).2
    = trace (update_cache clock notifier profiles w0).2
  ∧ (profiles ≠ [] →
     update_cache clock notifier profiles w
     = update_cache clock notifier profiles w0)
  ∧ (profiles = [] → file (update_cache clock notifier profiles w).2 = file w)
  ∧ remove_stale_profiles clock notifier profiles w
    = (Ok (), World (file w) (writable w) (ticks w)
                (trace w ++ [EvRead; EvLog WARNING CacheInvalid])).
Proof.
  intros Hfile Hw w0.
  assert (Hload : loaded_by_update (file w) = Some CACHE_FILE_default).
  { by destruct Hfile as [-> | ->]. }
  assert (Hload0 : loaded_by_update (file w0) = Some CACHE_FILE_default)
    by done.
  pose proof (update_cache_spec clock notifier profiles w _ []
                Hload eq_refl Hw) as Hspec.
  pose proof (update_cache_spec clock notifier profiles w0 _ []
                Hload0 eq_refl Hw) as Hspec0.
  simpl in Hspec, Hspec0.
  assert (Hnew : iter (list_to_set profiles ∖ ∅) = [] ↔ profiles = []).
  { rewrite iter_nil, difference_empty_L. split; [|by intros ->].
    destruct profiles; [done|set_solver]. }
  split_and!.
  - by destruct Hspec as [[_ ->] | [_ (? & -> & _)]].
  - by destruct Hspec0 as [[_ ->] | [_ (? & -> & _)]].
  - destruct (decide (profiles = [])) as [Hnil|Hne].
    + destruct Hspec as [[_ ->] | [Hn _]]; [|by destruct Hn; apply Hnew].
      destruct Hspec0 as [[_ ->] | [Hn _]]; [|by destruct Hn; apply Hnew].
      done.
    + by rewrite update_cache_as_default.
  - by apply update_cache_as_default.
  - intros ->. destruct Hspec as [[_ ->] | [Hn _]]; [done|].
    by destruct Hn; apply Hnew.
  - by apply remove_stale_profiles_skips.
Qed.

Lemma fetch_pages_bad_status pages status acc w :
  fetch_pages (foldr Page (BadStatus status) pages) acc w =
    (Ok [], record (EvLog ERROR (FetchFailed status)) w).
Proof.
  revert acc. induction pages as [|emails pages IH]; intros acc; [done|].
  simpl. apply IH.
Qed.

(** C5, as the code has it — Empty-fetch gate.  A fetch that meets a
    response of another status than 200, on whatever page, reports the
    empty list; and on an empty list the run stops at once: no read, no
    write, no notification attempt, the store and the clock exactly as
    before, for every prior state of the store.  A fetch that raises is
    not reported as the empty list: its exception leaves [main], and the
    store is not read or written and no notification is attempted then
    either. *)
Theorem empty_fetch_gate src w :
  (∀ pages status,
     src = foldr Page (BadStatus status) pages →
     (fetch_profiles src w).1 = Ok [])
  ∧ ((fetch_profiles src w).1 = Ok [] →
     ∃ evs,
       main clock notifier src w =
         (Ok (), World (file w) (writable w) (ticks w) (trace w ++ evs))
       ∧ posts evs = [] ∧ reads evs = 0 ∧ writes evs = []
       ∧ warnings evs = [NoProfilesFetched])
  ∧ (∀ e, (fetch_profiles src w).1 = Raise e →
     ∃ evs,
       main clock notifier src w =
         (Raise e, World (file w) (writable w) (ticks w) (trace w ++ evs))
       ∧ posts evs = [] ∧ reads evs = 0 ∧ writes evs = []).
Proof.
  split_and!.
  - intros pages status ->. unfold fetch_profiles.
    by rewrite fetch_pages_bad_status.
  - intros Hfetch. unfold fetch_profiles in Hfetch.
    destruct (fetch_pages_spec src [])
      as (r & evs & Hrun & Hposts & Hwrites & Hreads & Hwarn & _).
    rewrite Hrun in Hfetch. simpl in Hfetch. subst r.
    exists (evs ++ [EvLog WARNING NoProfilesFetched]).
    unfold main, fetch_profiles. rewrite (bind_Ok _ _ _ _ _ (Hrun w)).
    unfold logging, record. simpl. rewrite <-(assoc_L (++)).
    by rewrite posts_app, reads_app, writes_app, warnings_app,
      Hposts, Hreads, Hwrites, Hwarn.
  - intros e Hfetch. unfold fetch_profiles in Hfetch.
    destruct (fetch_pages_spec src [])
      as (r & evs & Hrun & Hposts & Hwrites & Hreads & _ & _).
    rewrite Hrun in Hfetch. simpl in Hfetch. subst r.
    exists evs. unfold main, fetch_profiles.
    by rewrite (bind_Raise _ _ _ _ _ (Hrun w)).
Qed.

(** *** Steadiness: no warning, no record lost *)

Lemma calm_refl w : calm w w.
Proof.
  split; [|eauto]. exists []. by rewrite app_nil_r.
Qed.

Lemma calm_trans w1 w2 w3 : calm w1 w2 → calm w2 w3 → calm w1 w3.
Proof.
  intros [(evs1 & Ht1 & Hw1) Hf1] [(evs2 & Ht2 & Hw2) Hf2]. split.
  - exists (evs1 ++ evs2).
    by rewrite Ht2, Ht1, warnings_app, Hw1, Hw2, (assoc_L (++)).
  - intros doc Hdoc. destruct (Hf1 _ Hdoc) as [doc' Hdoc']. eauto.
Qed.

Lemma calm_record e w :
  warnings [e] = [] → calm w (record e w).
Proof. intros He. split; [by exists [e]|eauto]. Qed.

Lemma steady_ret {A} (a : A) : steady (ret a).
Proof. intros w. apply calm_refl. Qed.

Lemma steady_lift {A} (r : res A) : steady (lift r).
Proof. intros w. apply calm_refl. Qed.

Lemma steady_bind {A B} (m : M A) (f : A → M B) :
  steady m → (∀ a, steady (f a)) → steady (bind m f).
Proof.
  intros Hm Hf w. unfold bind. specialize (Hm w).
  destruct (m w) as [[a|e] w']; simpl in *; [|done].
  eapply calm_trans; [done|apply Hf].
Qed.

Lemma steady_try_except {A} (m : M A) (h : exn → option (M A)) :
  steady m → (∀ e handler, h e = Some handler → steady handler) →
  steady (try_except m h).
Proof.
  intros Hm Hh w. unfold try_except. specialize (Hm w).
  destruct (m w) as [[a|e] w']; simpl in *; [done|].
  destruct (h e) as [handler|] eqn:He; [|done].
  eapply calm_trans; [done|]. by apply (Hh e).
Qed.

Lemma steady_for_each {A} (xs : list A) (body : A → M unit) :
  (∀ x, steady (body x)) → steady (for_each xs body).
Proof.
  intros Hbody. induction xs as [|x xs IH]; simpl.
  - apply steady_ret.
  - by apply steady_bind.
Qed.

Lemma steady_logging lvl msg : lvl ≠ WARNING → steady (logging lvl msg).
Proof. intros Hlvl w. apply calm_record. by destruct lvl. Qed.

Lemma steady_utcnow : steady (utcnow clock).
Proof. intros w. split; [|eauto]. exists []. simpl. by rewrite app_nil_r. Qed.

Lemma steady_load_cache : steady load_cache.
Proof.
  intros w. unfold load_cache.
  destruct (file w); simpl; by apply calm_record.
Qed.

Lemma steady_dump_cache cache : steady (dump_cache cache).
Proof.
  intros w. unfold dump_cache. destruct (writable w); simpl.
  - split; [by exists [EvWrite cache]|eauto].
  - apply calm_refl.
Qed.

Lemma steady_requests_post email event_name timestamp :
  steady (requests_post notifier email event_name timestamp).
Proof.
  intros w. unfold requests_post.
  destruct (notifier (trace w) email event_name); simpl;
    by apply calm_record.
Qed.

Lemma steady_push_event_to_klaviyo email event_name :
  steady (push_event_to_klaviyo clock notifier email event_name).
Proof.
  unfold push_event_to_klaviyo.
  apply steady_bind; [apply steady_utcnow|]. intros timestamp.
  apply steady_try_except.
  - apply steady_bind; [apply steady_requests_post|]. intros code.
    destruct (decide (code = 202)); by apply steady_logging.
  - intros e handler He. destruct e; simplify_eq.
    by apply steady_logging.
Qed.

Lemma steady_update_cache profiles :
  steady (update_cache clock notifier profiles).
Proof.
  unfold update_cache. apply steady_bind.
  { apply steady_try_except; [apply steady_load_cache|].
    intros e handler He. destruct e; simplify_eq; apply steady_ret. }
  intros cache. apply steady_bind; [apply steady_lift|].
  intros [|x new']; [by apply steady_logging|].
  apply steady_bind; [by apply steady_logging|]. intros _.
  apply steady_bind.
  { apply steady_for_each. intros email.
    apply steady_push_event_to_klaviyo. }
  intros _. apply steady_bind; [apply steady_lift|]. intros cache'.
  apply steady_bind; [apply steady_utcnow|]. intros now.
  apply steady_bind; [apply steady_lift|]. intros cache''.
  apply steady_bind; [apply steady_dump_cache|]. intros _.
  by apply steady_logging.
Qed.

(** Once the record could be loaded, the rest of the removal phase is
    steady. *)
Lemma remove_stale_profiles_calm fetched w doc :
  file w = Stored doc →
  calm w (remove_stale_profiles clock notifier fetched w).2.
Proof.
  intros Hfile. unfold remove_stale_profiles.
  assert (Hread : try_except (bind load_cache (λ cache, ret (Some cache)))
    (λ e, match e with
          | FileNotFoundError | JSONDecodeError =>
              Some (bind (logging WARNING CacheInvalid) (λ _, ret None))
          | _ => None
          end) w = (Ok (Some doc), record EvRead w)).
  { unfold try_except, bind, load_cache, ret. by rewrite Hfile. }
  rewrite (bind_Ok _ _ _ _ _ Hread).
  apply (calm_trans _ (record EvRead w)); [by apply calm_record|].
  generalize (record EvRead w). clear Hread Hfile w.
  apply steady_bind; [apply steady_lift|]. intros current.
  destruct (decide _); [by apply steady_logging|].
  apply steady_bind; [by apply steady_logging|]. intros _.
  apply steady_bind.
  { apply steady_for_each. intros email.
    apply steady_push_event_to_klaviyo. }
  intros _. apply steady_bind; [apply steady_lift|]. intros cache'.
  apply steady_bind; [apply steady_utcnow|]. intros now.
  apply steady_bind; [apply steady_lift|]. intros cache''.
  apply steady_bind; [apply steady_dump_cache|]. intros _.
  by apply steady_logging.
Qed.

(** A store that refuses writes makes the add phase fail at its write. *)
Lemma update_cache_unwritable profiles w kv l :
  loaded_by_update (file w) = Some (JObj kv) →
  Py.assoc "profiles" kv = Some (JArr l) →
  writable w = false →
  iter (list_to_set profiles ∖ list_to_set l) ≠ [] →
  (update_cache clock notifier profiles w).1 = Raise PermissionError.
Proof.
  intros Hload Hkv Hw Hnew. unfold update_cache.
  assert (Hread : try_except load_cache
    (λ e, match e with
          | FileNotFoundError | JSONDecodeError =>
              Some (ret CACHE_FILE_default)
          | _ => None
          end) w = (Ok (JObj kv), record EvRead w)).
  { unfold try_except, load_cache, ret.
    destruct (file w); simpl in *; unfold CACHE_FILE_default in *;
      by simplify_eq. }
  rewrite (bind_Ok _ _ _ _ _ Hread).
  assert (Hdiff : lift (new_profiles_of profiles (JObj kv))
    (record EvRead w)
    = (Ok (iter (list_to_set profiles ∖ list_to_set l)), record EvRead w)).
  { unfold lift, new_profiles_of. simpl. by rewrite Hkv. }
  rewrite (bind_Ok _ _ _ _ _ Hdiff). clear Hdiff Hread.
  destruct (iter (list_to_set profiles ∖ list_to_set l)) as [|x new'];
    [done|].
  set (new := x :: new').
  unfold logging at 1, bind at 1.
  edestruct (for_each_push clock notifier new "Joined Segment")
    as (evs & Hrun & _).
  rewrite (bind_Ok _ _ _ _ _ Hrun).
  unfold lift, bind, Py.extend_item, utcnow, dump_cache, logging,
    record, tick, set_file; simpl.
  rewrite Hkv. simpl. by rewrite Hw.
Qed.

(** After an add phase that completed on a non-empty fetched list, the
    store holds a decodable record. *)
Lemma update_cache_leaves_record profiles w w1 :
  profiles ≠ [] →
  update_cache clock notifier profiles w = (Ok (), w1) →
  ∃ doc, file w1 = Stored doc.
Proof.
  intros Hne Hrun.
  destruct (file w) as [| | |doc] eqn:Hfile.
  1, 3: destruct (writable w) eqn:Hw;
    [ destruct (update_cache_phase clock notifier profiles w ∅)
        as (w1' & _ & Hrun' & _ & _ & Hm); [by rewrite Hfile|done|];
      rewrite Hrun in Hrun'; simplify_eq;
      destruct (members_shape _ _ (Hm Hne)) as (kv & _ & -> & _); eauto
    | pose proof (update_cache_unwritable profiles w
        [("profiles", JArr []); ("last_updated", JNull)] []) as Hfail;
      rewrite Hrun, Hfile in Hfail; simpl in Hfail;
      discriminate Hfail; try done;
      rewrite iter_nil, difference_empty_L;
      destruct profiles; [done|set_solver] ].
  - exfalso. revert Hrun.
    unfold update_cache, bind, try_except, load_cache. by rewrite Hfile.
  - pose proof (steady_update_cache profiles w) as [_ Hkeep].
    rewrite Hrun in Hkeep. by apply (Hkeep doc).
Qed.

(** C10 — The removal phase's load cannot fail within a run.  In a run
    on a non-empty fetched list, from any state of the store whatever,
    an add phase that completes leaves a decodable record for the
    removal phase to load; so the run, however it ends, never logs the
    warning of the skipped removal, nor any other warning. *)
Theorem removal_always_loads src w profiles :
  (fetch_profiles src w).1 = Ok profiles →
  profiles ≠ [] →
  (∀ w1, update_cache clock notifier profiles w = (Ok (), w1) →
         ∃ doc, file w1 = Stored doc)
  ∧ ∃ r w' evs,
      main clock notifier src w = (r, w')
      ∧ trace w' = trace w ++ evs
      ∧ ¬ (EvLog WARNING CacheInvalid ∈ evs)
      ∧ warnings evs = [].
Proof.
  intros Hfetch Hne. split.
  { intros w1. by apply update_cache_leaves_record. }
  rewrite (main_nonempty clock notifier _ _ _ Hfetch Hne).
  assert (Hcalm : calm w (bind (update_cache clock notifier profiles)
    (λ _, remove_stale_profiles clock notifier profiles) w).2).
  { unfold bind. pose proof (steady_update_cache profiles w) as Hc1.
    destruct (update_cache clock notifier profiles w) as [[[]|e] w1] eqn:Hrun;
      simpl in *; [|done].
    destruct (update_cache_leaves_record _ _ _ Hne Hrun) as [doc Hdoc].
    eapply calm_trans; [done|]. by eapply remove_stale_profiles_calm. }
  destruct Hcalm as [(evs & Htr & Hwarn) _].
  destruct (bind _ _ w) as [r w']. exists r, w', evs.
  split_and!; try done.
  intros Hin. assert (CacheInvalid ∈ warnings evs) as Hin'.
  { unfold warnings. apply list_elem_of_omap.
    by exists (EvLog WARNING CacheInvalid). }
  rewrite Hwarn in Hin'. by apply not_elem_of_nil in Hin'.
Qed.

End Reconciliation.

(** ** Further properties of the script *)

Section Further.

Context {order : SetOrder}.
Variable clock : nat → string.
Variable notifier : list event → string → string → reply.

Lemma fetch_pages_all_ok pages last acc w :
  fetch_pages (foldr Page (LastPage last) pages) acc w
  = (Ok (acc ++ concat pages ++ last), w).
Proof.
  revert acc. induction pages as [|emails pages IH]; intros acc; [done|].
  simpl. rewrite IH. by rewrite <-!(assoc_L (++)).
Qed.

(** X1 — Pagination.  When every page is served, the fetch returns the
    identities of all pages, in page order and in their order within each
    page, duplicates kept, and leaves the world as it found it: nothing is
    logged. *)
Theorem fetch_profiles_concatenates pages last w :
  fetch_profiles (foldr Page (LastPage last) pages) w
  = (Ok (concat pages ++ last), w).
Proof. unfold fetch_profiles. by rewrite fetch_pages_all_ok. Qed.

Lemma fetch_pages_no_connection pages acc w :
  fetch_pages (foldr Page NoConnection pages) acc w
  = (Raise RequestException, w).
Proof.
  revert acc. induction pages as [|emails pages IH]; intros acc; [done|].
  simpl. apply IH.
Qed.

(** X2 — A transport failure of the fetch is not handled.  If a page
    request fails to connect, after any number of pages served, the
    exception leaves [main]: nothing is logged, the store is neither read
    nor written, no notification is attempted. *)
Theorem fetch_connection_error_propagates pages w :
  main clock notifier (foldr Page NoConnection pages) w
  = (Raise RequestException, w).
Proof.
  unfold main, fetch_profiles.
  by rewrite (bind_Raise _ _ _ _ _ (fetch_pages_no_connection pages [] w)).
Qed.

(** X3 — Order of the notifications.  In a reconciling run the attempts
    are all the "joined" ones, in the order the added set was walked, and
    then all the "left" ones; no identity is notified both as joined and
    as left. *)
Theorem notifications_joined_then_left src w profiles P :
  (fetch_profiles src w).1 = Ok profiles →
  profiles ≠ [] →
  prior_members (file w) = Some P →
  writable w = true →
  ∃ w' evs,
    main clock notifier src w = (Ok (), w')
    ∧ trace w' = trace w ++ evs
    ∧ posts evs = joined (iter (list_to_set profiles ∖ P))
                  ++ left (iter (P ∖ list_to_set profiles))
    ∧ ∀ x, ¬ ((x, "Joined Segment") ∈ posts evs
              ∧ (x, "Left Segment") ∈ posts evs).
Proof.
  intros Hfetch Hne HP Hw.
  destruct (cycle_spec clock notifier src w profiles P Hfetch Hne HP Hw)
    as (w1 & w2 & evs1 & evs2 & _ & _ & Hmain & Hph1 & Hph2 & _ & _).
  destruct (cycle_trace _ _ _ _ _ _ _ _ Hph1 Hph2) as [Htr Hposts].
  exists w2, (evs1 ++ evs2). split_and!; try done.
  intros x. rewrite Hposts, !elem_of_app, !elem_of_joined, !elem_of_left.
  rewrite !iter_elem_of. set_solver.
Qed.

(** The add phase when nothing is new: it needs no write access. *)
Lemma update_cache_idle profiles w kv l :
  loaded_by_update (file w) = Some (JObj kv) →
  Py.assoc "profiles" kv = Some (JArr l) →
  iter (list_to_set profiles ∖ list_to_set l) = [] →
  update_cache clock notifier profiles w =
    (Ok (), World (file w) (writable w) (ticks w)
              (trace w ++ [EvRead; EvLog INFO NoNewProfiles])).
Proof.
  intros Hload Hkv Hnil. unfold update_cache.
  assert (Hread : try_except load_cache
    (λ e, match e with
          | FileNotFoundError | JSONDecodeError =>
              Some (ret CACHE_FILE_default)
          | _ => None
          end) w = (Ok (JObj kv), record EvRead w)).
  { unfold try_except, load_cache, ret.
    destruct (file w); simpl in *; unfold CACHE_FILE_default in *;
      by simplify_eq. }
  rewrite (bind_Ok _ _ _ _ _ Hread).
  assert (Hdiff : lift (new_profiles_of profiles (JObj kv)) (record EvRead w)
                  = (Ok [], record EvRead w)).
  { unfold lift, new_profiles_of. simpl. by rewrite Hkv, <-Hnil. }
  rewrite (bind_Ok _ _ _ _ _ Hdiff).
  unfold logging, record. simpl. by rewrite <-(assoc_L (++)).
Qed.

(** The add phase on a store that refuses writes: every notification is
    attempted, the clock is read for the stamp, and the write fails. *)
Lemma update_cache_refused profiles w kv l :
  loaded_by_update (file w) = Some (JObj kv) →
  Py.assoc "profiles" kv = Some (JArr l) →
  writable w = false →
  let new := iter (list_to_set profiles ∖ list_to_set l) in
  new ≠ [] →
  ∃ evs,
    update_cache clock notifier profiles w =
      (Raise PermissionError,
       World (file w) false (S (ticks w + length new))
         (trace w ++ EvRead :: EvLog INFO (NewProfiles new) :: evs))
    ∧ posts evs = joined new
    ∧ writes evs = [] ∧ reads evs = 0 ∧ warnings evs = [].
Proof.
  intros Hload Hkv Hw new Hnew. unfold update_cache.
  assert (Hread : try_except load_cache
    (λ e, match e with
          | FileNotFoundError | JSONDecodeError =>
              Some (ret CACHE_FILE_default)
          | _ => None
          end) w = (Ok (JObj kv), record EvRead w)).
  { unfold try_except, load_cache, ret.
    destruct (file w); simpl in *; unfold CACHE_FILE_default in *;
      by simplify_eq. }
  rewrite (bind_Ok _ _ _ _ _ Hread).
  assert (Hdiff : lift (new_profiles_of profiles (JObj kv)) (record EvRead w)
                  = (Ok new, record EvRead w)).
  { unfold lift, new_profiles_of. simpl. by rewrite Hkv. }
  rewrite (bind_Ok _ _ _ _ _ Hdiff). clear Hdiff Hread. clearbody new.
  destruct new as [|x new']; [done|]. set (new := x :: new').
  unfold logging at 1, bind at 1.
  edestruct (for_each_push clock notifier new "Joined Segment")
    as (evs & Hrun & Hrest).
  rewrite (bind_Ok _ _ _ _ _ Hrun). exists evs. split; [|done].
  unfold lift, bind, Py.extend_item, utcnow, dump_cache, logging,
    record, tick, set_file; simpl.
  rewrite Hkv. simpl. rewrite Hw. do 2 f_equal.
  by rewrite <-!(assoc_L (++)).
Qed.

(** The removal phase when nothing is stale: it needs no write access. *)
Lemma remove_stale_profiles_idle fetched w doc current :
  file w = Stored doc →
  cached_profiles_of doc = Ok current →
  stale_profiles_of fetched current = ∅ →
  remove_stale_profiles clock notifier fetched w =
    (Ok (), World (file w) (writable w) (ticks w)
              (trace w ++ [EvRead; EvLog INFO NoStaleProfiles])).
Proof.
  intros Hfile Hcur Hnil. unfold remove_stale_profiles.
  assert (Hread : try_except (bind load_cache (λ cache, ret (Some cache)))
    (λ e, match e with
          | FileNotFoundError | JSONDecodeError =>
              Some (bind (logging WARNING CacheInvalid) (λ _, ret None))
          | _ => None
          end) w = (Ok (Some doc), record EvRead w)).
  { unfold try_except, bind, load_cache, ret. by rewrite Hfile. }
  rewrite (bind_Ok _ _ _ _ _ Hread).
  assert (Hc : lift (cached_profiles_of doc) (record EvRead w)
               = (Ok current, record EvRead w)) by (unfold lift; by rewrite Hcur).
  rewrite (bind_Ok _ _ _ _ _ Hc).
  rewrite decide_True by done.
  unfold logging, record. simpl. by rewrite <-(assoc_L (++)).
Qed.

(** The removal phase on a store that refuses writes. *)
Lemma remove_stale_profiles_refused fetched w kv l :
  file w = Stored (JObj kv) →
  Py.assoc "profiles" kv = Some (JArr l) →
  writable w = false →
  let stale := stale_profiles_of fetched (list_to_set l) in
  stale ≠ ∅ →
  ∃ evs,
    remove_stale_profiles clock notifier fetched w =
      (Raise PermissionError,
       World (file w) false (S (ticks w + length (iter stale)))
         (trace w ++ EvRead :: EvLog INFO (StaleProfiles (iter stale)) :: evs))
    ∧ posts evs = left (iter stale)
    ∧ writes evs = [] ∧ reads evs = 0 ∧ warnings evs = [].
Proof.
  intros Hfile Hkv Hw stale Hstale. unfold remove_stale_profiles.
  assert (Hread : try_except (bind load_cache (λ cache, ret (Some cache)))
    (λ e, match e with
          | FileNotFoundError | JSONDecodeError =>
              Some (bind (logging WARNING CacheInvalid) (λ _, ret None))
          | _ => None
          end) w = (Ok (Some (JObj kv)), record EvRead w)).
  { unfold try_except, bind, load_cache, ret. by rewrite Hfile. }
  rewrite (bind_Ok _ _ _ _ _ Hread).
  assert (Hcur : lift (cached_profiles_of (JObj kv)) (record EvRead w) =
    (Ok (list_to_set l), record EvRead w)).
  { unfold lift, cached_profiles_of. simpl. by rewrite Hkv. }
  rewrite (bind_Ok _ _ _ _ _ Hcur). clear Hcur Hread. fold stale.
  rewrite decide_False by done.
  unfold logging at 1, bind at 1.
  edestruct (for_each_push clock notifier (iter stale) "Left Segment")
    as (evs & Hrun & Hrest).
  rewrite (bind_Ok _ _ _ _ _ Hrun). exists evs. split; [|done].
  unfold lift, bind, utcnow, dump_cache, logging, record, tick, set_file;
    simpl.
  rewrite Hw. do 2 f_equal. by rewrite <-!(assoc_L (++)).
Qed.

(** A non-empty prior member set can only come from a stored record. *)
Lemma prior_members_stored f P :
  prior_members f = Some P → P ≠ ∅ →
  ∃ kv l, f = Stored (JObj kv) ∧ Py.assoc "profiles" kv = Some (JArr l)
          ∧ P = list_to_set l.
Proof.
  intros HP Hne. destruct f as [| | |doc]; simpl in HP; simplify_eq.
  by apply members_shape.
Qed.

(** X4 — A store that refuses writes, with identities to add.  The add
    phase attempts every "joined" notification and only then fails at its
    write: [main] raises [PermissionError], the removal phase is not run,
    and the record is the prior one, so that the next run finds the same
    identities to add. *)
Theorem read_only_store_fails_after_joined src w profiles P :
  (fetch_profiles src w).1 = Ok profiles →
  profiles ≠ [] →
  prior_members (file w) = Some P →
  writable w = false →
  list_to_set profiles ∖ P ≠ ∅ →
  ∃ w' evs,
    main clock notifier src w = (Raise PermissionError, w')
    ∧ trace w' = trace w ++ evs
    ∧ file w' = file w
    ∧ posts evs = joined (iter (list_to_set profiles ∖ P))
    ∧ writes evs = []
    ∧ reads evs = 1.
Proof.
  intros Hfetch Hne HP Hw Hadd.
  destruct (prior_members_shape _ _ HP) as (kv & l & Hload & Hkv & ->).
  destruct (update_cache_refused profiles w kv l Hload Hkv Hw)
    as (evs & Hrun & Hposts & Hwr & Hrd & _).
  { by rewrite iter_nil. }
  eexists _, _. rewrite (main_nonempty clock notifier _ _ _ Hfetch Hne).
  rewrite (bind_Raise _ _ _ _ _ Hrun). cbn [trace file].
  split_and!; [done|done|done|..].
  - split_trace_before evs. by rewrite posts_app, Hposts.
  - split_trace_before evs. by rewrite writes_app, Hwr.
  - split_trace_before evs. by rewrite reads_app, Hrd.
Qed.

(** X5 — A store that refuses writes, with nothing to add and identities
    to remove.  The add phase passes without writing, the removal phase
    attempts every "left" notification and then fails at its write:
    [main] raises [PermissionError] and the record is the prior one. *)
Theorem read_only_store_fails_after_left src w profiles P :
  (fetch_profiles src w).1 = Ok profiles →
  profiles ≠ [] →
  prior_members (file w) = Some P →
  writable w = false →
  list_to_set profiles ∖ P = ∅ →
  P ∖ list_to_set profiles ≠ ∅ →
  ∃ w' evs,
    main clock notifier src w = (Raise PermissionError, w')
    ∧ trace w' = trace w ++ evs
    ∧ file w' = file w
    ∧ posts evs = left (iter (P ∖ list_to_set profiles))
    ∧ writes evs = []
    ∧ reads evs = 2.
Proof.
  intros Hfetch Hne HP Hw Hadd Hrem.
  destruct (prior_members_stored _ _ HP) as (kv & l & Hfile & Hkv & ->).
  { intros ->. apply Hrem. set_solver. }
  assert (Hload : loaded_by_update (file w) = Some (JObj kv))
    by (by rewrite Hfile).
  pose proof (update_cache_idle profiles w kv l Hload Hkv
                (proj2 (iter_nil _) Hadd)) as Hrun1.
  set (w1 := World (file w) (writable w) (ticks w)
               (trace w ++ [EvRead; EvLog INFO NoNewProfiles])) in Hrun1.
  destruct (remove_stale_profiles_refused profiles w1 kv l Hfile Hkv Hw Hrem)
    as (evs & Hrun2 & Hposts & Hwr & Hrd & _).
  eexists _, _. rewrite (main_nonempty clock notifier _ _ _ Hfetch Hne).
  rewrite (bind_Ok _ _ _ _ _ Hrun1), Hrun2. cbn [trace file w1].
  rewrite <-(assoc_L (++)).
  split_and!; [done|done|done|..].
  - rewrite posts_app. split_trace_before evs.
    by rewrite posts_app, Hposts.
  - rewrite writes_app. split_trace_before evs.
    by rewrite writes_app, Hwr.
  - rewrite reads_app. split_trace_before evs.
    by rewrite reads_app, Hrd.
Qed.

(** X6 — A run that finds nothing changed.  When the fetched set is the
    prior member set, the run consists of two reads and two log lines:
    no notification, no reading of the clock, no write; it completes
    whether or not the store accepts writes. *)
Theorem unchanged_run_is_read_only src w profiles :
  (fetch_profiles src w).1 = Ok profiles →
  profiles ≠ [] →
  prior_members (file w) = Some (list_to_set profiles) →
  main clock notifier src w =
    (Ok (), World (file w) (writable w) (ticks w)
              (trace w ++ [EvRead; EvLog INFO NoNewProfiles;
                           EvRead; EvLog INFO NoStaleProfiles])).
Proof.
  intros Hfetch Hne HP.
  destruct (prior_members_stored _ _ HP) as (kv & l & Hfile & Hkv & HF).
  { destruct profiles; [done|set_solver]. }
  assert (Hload : loaded_by_update (file w) = Some (JObj kv))
    by (by rewrite Hfile).
  assert (Hadd : iter (list_to_set profiles ∖ list_to_set l) = []).
  { by rewrite <-HF, difference_diag_L, iter_nil. }
  pose proof (update_cache_idle profiles w kv l Hload Hkv Hadd) as Hrun1.
  set (w1 := World (file w) (writable w) (ticks w)
               (trace w ++ [EvRead; EvLog INFO NoNewProfiles])) in Hrun1.
  assert (Hrun2 := remove_stale_profiles_idle profiles w1 (JObj kv)
                     (list_to_set l) Hfile).
  rewrite (main_nonempty clock notifier _ _ _ Hfetch Hne).
  rewrite (bind_Ok _ _ _ _ _ Hrun1), Hrun2.
  - cbn [trace file writable ticks w1]. by rewrite <-(assoc_L (++)).
  - unfold cached_profiles_of. simpl. by rewrite Hkv.
  - unfold stale_profiles_of. by rewrite <-HF, difference_diag_L.
Qed.

(** *** Dictionaries *)

Lemma assoc_None_keys k kv : Py.assoc k kv = None ↔ k ∉ kv.*1.
Proof.
  induction kv as [|[k' v] kv IH]; simpl.
  - split; [intros _; apply not_elem_of_nil|done].
  - rewrite not_elem_of_cons. destruct (decide (k = k')); naive_solver.
Qed.

Lemma assign_keys k v kv :
  (Py.assign k v kv).*1 = if decide (k ∈ kv.*1) then kv.*1 else kv.*1 ++ [k].
Proof.
  induction kv as [|[k' v'] kv IH].
  - case_decide as Hin; [by apply elem_of_nil in Hin|done].
  - cbn [Py.assign]. destruct (decide (k = k')) as [->|Hne].
    + clear IH. case_decide as Hin; [done|]. destruct Hin. simpl. by left.
    + change (((k', v') :: Py.assign k v kv).*1)
        with (k' :: (Py.assign k v kv).*1).
      change (((k', v') :: kv).*1) with (k' :: kv.*1).
      rewrite IH. destruct (decide (k ∈ kv.*1)) as [Hin|Hin].
      * rewrite decide_True; [done|by right].
      * rewrite decide_False; [done|].
        rewrite not_elem_of_cons. done.
Qed.

Lemma assign_NoDup k v kv : NoDup kv.*1 → NoDup (Py.assign k v kv).*1.
Proof.
  intros Hnd. rewrite assign_keys. destruct (decide (k ∈ kv.*1)); [done|].
  apply NoDup_app. split_and!; [done| |apply NoDup_singleton].
  intros x Hx ->%list_elem_of_singleton. done.
Qed.

Lemma assign_keeps_keys k v kv k' :
  k' ∈ kv.*1 → k' ∈ (Py.assign k v kv).*1.
Proof.
  intros Hin. rewrite assign_keys. destruct (decide (k ∈ kv.*1)); [done|].
  apply elem_of_app. by left.
Qed.

(** What a phase leaves of the entries it does not own. *)
Lemma record_step_fields kv kv' l l' :
  record_step kv kv' l l' →
  (∀ k, k ≠ "profiles" → k ≠ "last_updated" →
        Py.assoc k kv' = Py.assoc k kv)
  ∧ (NoDup kv.*1 → NoDup kv'.*1)
  ∧ (∀ k, k ∈ kv.*1 → k ∈ kv'.*1).
Proof.
  intros [[-> _] | [now ->]]; [done|]. split_and!.
  - intros k Hp Hl. rewrite !assoc_assign.
    by rewrite !decide_False by done.
  - intros Hnd. by do 2 apply assign_NoDup.
  - intros k Hk. by do 2 apply assign_keeps_keys.
Qed.

(** *** Both phases, record by record *)

Lemma cycle_records src w profiles kv l :
  (fetch_profiles src w).1 = Ok profiles →
  profiles ≠ [] →
  loaded_by_update (file w) = Some (JObj kv) →
  Py.assoc "profiles" kv = Some (JArr l) →
  writable w = true →
  let new := iter (list_to_set profiles ∖ list_to_set l) in
  ∃ w1 w2 kv1 kv2 l2 evs1 evs2,
    update_cache clock notifier profiles w = (Ok (), w1)
    ∧ remove_stale_profiles clock notifier profiles w1 = (Ok (), w2)
    ∧ main clock notifier src w = (Ok (), w2)
    ∧ trace w1 = trace w ++ evs1 ∧ trace w2 = trace w1 ++ evs2
    ∧ file w1 = Stored (JObj kv1)
    ∧ Py.assoc "profiles" kv1 = Some (JArr (l ++ new))
    ∧ record_step kv kv1 l (l ++ new)
    ∧ file w2 = Stored (JObj kv2)
    ∧ Py.assoc "profiles" kv2 = Some (JArr l2)
    ∧ record_step kv1 kv2 (l ++ new) l2
    ∧ ((stale_profiles_of profiles (list_to_set (l ++ new)) = ∅
        ∧ l2 = l ++ new)
       ∨ NoDup l2)
    ∧ ticks w1 = ticks w + length (posts evs1) + length (writes evs1)
    ∧ ticks w2 = ticks w1 + length (posts evs2) + length (writes evs2).
Proof.
  intros Hfetch Hne Hload Hkv Hw new.
  assert (Hstored : new = [] → file w = Stored (JObj kv)).
  { intros Hnil. apply iter_nil, difference_empty_subseteq in Hnil.
    destruct (file w); simpl in *; unfold CACHE_FILE_default in *;
      simplify_eq; try done; destruct profiles; set_solver. }
  assert (∃ w1 kv1 evs1,
    update_cache clock notifier profiles w = (Ok (), w1)
    ∧ trace w1 = trace w ++ evs1
    ∧ file w1 = Stored (JObj kv1)
    ∧ Py.assoc "profiles" kv1 = Some (JArr (l ++ new))
    ∧ record_step kv kv1 l (l ++ new)
    ∧ writable w1 = true
    ∧ ticks w1 = ticks w + length (posts evs1) + length (writes evs1))
    as (w1 & kv1 & evs1 & Hrun1 & Htr1 & Hf1 & Hkv1 & Hstep1 & Hw1 & Ht1).
  { destruct (update_cache_spec clock notifier profiles w kv l Hload Hkv Hw)
      as [[Hnil Hrun] | [Hnew (evs & Hrun & Hposts & Hwr & Hrd & _)]];
      fold new in Hnil || fold new in Hnew, Hrun, Hposts.
    - eexists _, kv, [EvRead; EvLog INFO NoNewProfiles].
      split; [exact Hrun|]. cbn [trace file ticks writable].
      rewrite Hnil, app_nil_r. split_and!; try done.
      + by apply Hstored.
      + by left.
      + simpl. lia.
    - eexists _, _, _. split; [exact Hrun|]. cbn [trace file ticks writable].
      split_and!; try done.
      + by rewrite !assoc_assign.
      + right. by eexists.
      + split_trace. rewrite !posts_app, !writes_app, Hposts, Hwr.
        unfold joined. simpl. rewrite length_app, length_fmap. simpl. lia. }
  destruct (remove_stale_profiles_spec clock notifier profiles w1 kv1
              (l ++ new) Hf1 Hkv1 Hw1)
    as [[Hnil Hrun] | [Hst (evs & Hrun & Hposts & Hwr & Hrd & _)]].
  - eexists w1, _, kv1, kv1, (l ++ new), evs1, _.
    split_and!; try done; cbn [trace file ticks writable]; try done.
    + rewrite (main_nonempty clock notifier _ _ _ Hfetch Hne).
      by rewrite (bind_Ok _ _ _ _ _ Hrun1).
    + by left.
    + by left.
    + simpl. lia.
  - eexists w1, _, kv1, _, _, evs1, _.
    split_and!; try done; cbn [trace file ticks writable]; try done.
    + rewrite (main_nonempty clock notifier _ _ _ Hfetch Hne).
      by rewrite (bind_Ok _ _ _ _ _ Hrun1).
    + by rewrite !assoc_assign.
    + right. by eexists.
    + right. apply iter_NoDup.
    + split_trace. rewrite !posts_app, !writes_app, Hposts, Hwr.
      unfold left. simpl. rewrite length_app, length_fmap. simpl. lia.
Qed.

(** X7 — Fields the script does not own.  Whatever else a stored record
    holds besides ["profiles"] and ["last_updated"] is still there, with
    the same value, after a run; no key is dropped, and keys stay unique
    if they were. *)
Theorem other_fields_survive src w profiles kv l :
  (fetch_profiles src w).1 = Ok profiles →
  profiles ≠ [] →
  file w = Stored (JObj kv) →
  Py.assoc "profiles" kv = Some (JArr l) →
  writable w = true →
  ∃ w' kv',
    main clock notifier src w = (Ok (), w')
    ∧ file w' = Stored (JObj kv')
    ∧ (∀ k, k ≠ "profiles" → k ≠ "last_updated" →
            Py.assoc k kv' = Py.assoc k kv)
    ∧ (∀ k, k ∈ kv.*1 → k ∈ kv'.*1)
    ∧ (NoDup kv.*1 → NoDup kv'.*1).
Proof.
  intros Hfetch Hne Hfile Hkv Hw.
  assert (Hload : loaded_by_update (file w) = Some (JObj kv))
    by (by rewrite Hfile).
  destruct (cycle_records src w profiles kv l Hfetch Hne Hload Hkv Hw)
    as (w1 & w2 & kv1 & kv2 & l2 & evs1 & evs2 & _ & _ & Hmain & _ & _ & _
        & _ & Hs1 & Hf2 & _ & Hs2 & _).
  destruct (record_step_fields _ _ _ _ Hs1) as (Ha1 & Hn1 & Hk1).
  destruct (record_step_fields _ _ _ _ Hs2) as (Ha2 & Hn2 & Hk2).
  exists w2, kv2. split_and!; try done.
  - intros k Hp Hl. by rewrite Ha2, Ha1.
  - intros k Hk. by apply Hk2, Hk1.
  - intros Hnd. by apply Hn2, Hn1.
Qed.

(** X8 — The stored list stays free of duplicates.  If the prior record
    lists no identity twice, neither does the record a run leaves; and
    whenever the removal phase has something to remove, the list it
    writes is free of duplicates whatever the prior one was.  In both
    cases the list holds exactly the fetched identities. *)
Theorem stored_list_duplicate_free src w profiles kv l :
  (fetch_profiles src w).1 = Ok profiles →
  profiles ≠ [] →
  loaded_by_update (file w) = Some (JObj kv) →
  Py.assoc "profiles" kv = Some (JArr l) →
  writable w = true →
  NoDup l ∨ list_to_set l ∖ list_to_set profiles ≠ (∅ : gset string) →
  ∃ w' doc' l',
    main clock notifier src w = (Ok (), w')
    ∧ file w' = Stored doc'
    ∧ doc_profiles doc' = Some l'
    ∧ NoDup l'
    ∧ ∀ x, x ∈ l' ↔ x ∈ profiles.
Proof.
  intros Hfetch Hne Hload Hkv Hw Hprior.
  destruct (cycle_records src w profiles kv l Hfetch Hne Hload Hkv Hw)
    as (w1 & w2 & kv1 & kv2 & l2 & evs1 & evs2 & _ & _ & Hmain & _ & _ & _
        & _ & _ & Hf2 & Hkv2 & _ & Hl2 & _).
  assert (HP : prior_members (file w) = Some (list_to_set l)).
  { destruct (file w) as [| | |doc]; simpl in *;
      unfold CACHE_FILE_default in *; simplify_eq; simpl in *;
      simplify_eq; try done.
    by rewrite Hkv. }
  destruct (cycle_spec clock notifier src w profiles _ Hfetch Hne HP Hw)
    as (? & w2' & ? & ? & _ & _ & Hmain' & _ & _ & _ & Hm).
  rewrite Hmain in Hmain'. simplify_eq.
  rewrite Hf2 in Hm. simpl in Hm. rewrite Hkv2 in Hm. simpl in Hm.
  exists w2', (JObj kv2), l2. split_and!; try done.
  - simpl. by rewrite Hkv2.
  - destruct Hl2 as [[Hst ->]|]; [|done].
    destruct Hprior as [Hnd|Hrem].
    + apply NoDup_app. split_and!; [done| |apply iter_NoDup].
      intros y Hy Hnew. apply iter_elem_of in Hnew. set_solver.
    + destruct Hrem. unfold stale_profiles_of in Hst.
      rewrite list_to_set_app_L in Hst. set_solver.
  - intros y. simplify_eq.
    by rewrite <-(elem_of_list_to_set (C := gset string)), Hm,
      elem_of_list_to_set.
Qed.

(** X9 — The clock is read once for every notification attempt and once
    for every write, and at no other time. *)
Theorem clock_read_per_attempt_and_write src w profiles P :
  (fetch_profiles src w).1 = Ok profiles →
  profiles ≠ [] →
  prior_members (file w) = Some P →
  writable w = true →
  ∃ w' evs,
    main clock notifier src w = (Ok (), w')
    ∧ trace w' = trace w ++ evs
    ∧ ticks w' = ticks w + length (posts evs) + length (writes evs).
Proof.
  intros Hfetch Hne HP Hw.
  destruct (prior_members_shape _ _ HP) as (kv & l & Hload & Hkv & ->).
  destruct (cycle_records src w profiles kv l Hfetch Hne Hload Hkv Hw)
    as (w1 & w2 & kv1 & kv2 & l2 & evs1 & evs2 & _ & _ & Hmain & Htr1 & Htr2
        & _ & _ & _ & _ & _ & _ & _ & Ht1 & Ht2).
  exists w2, (evs1 ++ evs2). split_and!; [done|..].
  - by rewrite Htr2, Htr1, (assoc_L (++)).
  - rewrite posts_app, writes_app, !length_app. lia.
Qed.

(** X10 — The add phase only appends.  On a stored record, whatever the
    fetched list (the empty one included), the list the add phase leaves
    is the prior list, in its order and with its repetitions, followed by
    the new identities: each once, each fetched, none listed before. *)
Theorem update_cache_appends profiles w kv l :
  file w = Stored (JObj kv) →
  Py.assoc "profiles" kv = Some (JArr l) →
  writable w = true →
  ∃ w1 doc1 new,
    update_cache clock notifier profiles w = (Ok (), w1)
    ∧ file w1 = Stored doc1
    ∧ doc_profiles doc1 = Some (l ++ new)
    ∧ NoDup new
    ∧ ∀ x, x ∈ new ↔ x ∈ profiles ∧ x ∉ l.
Proof.
  intros Hfile Hkv Hw.
  assert (Hload : loaded_by_update (file w) = Some (JObj kv))
    by (by rewrite Hfile).
  assert (Hnew : ∀ x, x ∈ iter (list_to_set profiles ∖ list_to_set l)
                      ↔ x ∈ profiles ∧ x ∉ l).
  { intros x. rewrite iter_elem_of. set_solver. }
  destruct (update_cache_spec clock notifier profiles w kv l Hload Hkv Hw)
    as [[Hnil Hrun] | [_ (evs & Hrun & _)]].
  - eexists _, (JObj kv), []. rewrite Hrun. rewrite Hnil in Hnew.
    split_and!; try done.
    + simpl. by rewrite Hkv, app_nil_r.
    + apply NoDup_nil_2.
  - eexists _, _, _. rewrite Hrun. split_and!; try done.
    + by rewrite doc_profiles_after_update.
    + apply iter_NoDup.
Qed.

(** X11 — The removal phase only removes.  On a stored record, whatever
    the fetched list (the empty one included), the list it leaves holds
    exactly the prior identities that were fetched, and its notification
    attempts are exactly one "left" for each prior identity that was
    not.  Given an empty fetched list it would thus declare every member
    gone, which is what the gate in [main] prevents. *)
Theorem remove_stale_profiles_only_removes fetched w kv l :
  file w = Stored (JObj kv) →
  Py.assoc "profiles" kv = Some (JArr l) →
  writable w = true →
  ∃ w2 doc2 l2 evs,
    remove_stale_profiles clock notifier fetched w = (Ok (), w2)
    ∧ trace w2 = trace w ++ evs
    ∧ file w2 = Stored doc2
    ∧ doc_profiles doc2 = Some l2
    ∧ (∀ x, x ∈ l2 ↔ x ∈ l ∧ x ∈ fetched)
    ∧ NoDup (posts evs)
    ∧ (∀ x event_name,
         (x, event_name) ∈ posts evs
         ↔ event_name = "Left Segment" ∧ x ∈ l ∧ x ∉ fetched).
Proof.
  intros Hfile Hkv Hw.
  destruct (remove_stale_profiles_spec clock notifier fetched w kv l
              Hfile Hkv Hw)
    as [[Hnil Hrun] | [_ (evs & Hrun & Hposts & _)]];
    unfold stale_profiles_of in *.
  - eexists _, (JObj kv), l, [EvRead; EvLog INFO NoStaleProfiles].
    rewrite Hrun. split_and!; try done.
    + simpl. by rewrite Hkv.
    + intros x. apply difference_empty_subseteq in Hnil. set_solver.
    + apply NoDup_nil_2.
    + intros x name. apply difference_empty_subseteq in Hnil.
      split; [by intros ?%elem_of_nil|]. set_solver.
  - eexists _, _, _, _. rewrite Hrun. cbn [trace file].
    split_and!; try done.
    + by rewrite doc_profiles_after_removal.
    + intros x. rewrite iter_elem_of, difference_difference_same.
      set_solver.
    + split_trace. rewrite !posts_app, Hposts, app_nil_r. simpl.
      apply NoDup_fmap_2; [by intros ?? [= ->]|apply iter_NoDup].
    + intros x name. split_trace. rewrite !posts_app, Hposts, app_nil_r.
      simpl. rewrite elem_of_left, iter_elem_of. set_solver.
Qed.

(** X12 — A record without the ["profiles"] key.  The removal phase reads
    it as a record with no members and completes without a write; the add
    phase raises [KeyError] on the same record, having only read it. *)
Theorem missing_profiles_key_asymmetry profiles w kv :
  file w = Stored (JObj kv) →
  Py.assoc "profiles" kv = None →
  remove_stale_profiles clock notifier profiles w =
    (Ok (), World (file w) (writable w) (ticks w)
              (trace w ++ [EvRead; EvLog INFO NoStaleProfiles]))
  ∧ update_cache clock notifier profiles w
    = (Raise KeyError, record EvRead w).
Proof.
  intros Hfile Hkv. split.
  - apply (remove_stale_profiles_idle profiles w (JObj kv) ∅ Hfile).
    + unfold cached_profiles_of. simpl. by rewrite Hkv.
    + unfold stale_profiles_of. set_solver.
  - unfold update_cache, bind, try_except, load_cache, lift,
      new_profiles_of. rewrite Hfile. simpl. by rewrite Hkv.
Qed.

(** X13 — An ill-shaped record stops the run before any effect.  When the
    difference of line 95 cannot be computed on the stored record (it is
    not a dictionary, it lacks the key, the value is not iterable), the
    exception leaves [main] after the one read: no notification attempt,
    no reading of the clock, no write. *)
Theorem ill_shaped_record_fails_first src w profiles doc e :
  (fetch_profiles src w).1 = Ok profiles →
  profiles ≠ [] →
  file w = Stored doc →
  new_profiles_of profiles doc = Raise e →
  main clock notifier src w = (Raise e, record EvRead w).
Proof.
  intros Hfetch Hne Hfile Hdiff.
  rewrite (main_nonempty clock notifier _ _ _ Hfetch Hne).
  unfold update_cache, bind, try_except, load_cache, lift.
  rewrite Hfile. simpl. by rewrite Hdiff.
Qed.

(** X14 — A ["profiles"] value that can be iterated but is not a list (a
    string, a dictionary).  The difference is computed against its
    characters or keys; if anything is new, every "joined" notification
    is attempted, and only then does [extend] raise [AttributeError]:
    nothing is written, and the removal phase is not run. *)
Theorem iterable_non_list_fails_after_joined src w profiles kv v cached :
  (fetch_profiles src w).1 = Ok profiles →
  profiles ≠ [] →
  file w = Stored (JObj kv) →
  Py.assoc "profiles" kv = Some v →
  (∀ l, v ≠ JArr l) →
  Py.set_of v = Ok cached →
  let new := iter (list_to_set profiles ∖ cached) in
  new ≠ [] →
  ∃ evs,
    main clock notifier src w =
      (Raise AttributeError,
       World (file w) (writable w) (ticks w + length new)
         (trace w ++ EvRead :: EvLog INFO (NewProfiles new) :: evs))
    ∧ posts evs = joined new
    ∧ writes evs = [] ∧ reads evs = 0.
Proof.
  intros Hfetch Hne Hfile Hkv Hv Hset new Hnew.
  rewrite (main_nonempty clock notifier _ _ _ Hfetch Hne).
  assert (Hread : try_except load_cache
    (λ e, match e with
          | FileNotFoundError | JSONDecodeError =>
              Some (ret CACHE_FILE_default)
          | _ => None
          end) w = (Ok (JObj kv), record EvRead w)).
  { unfold try_except, load_cache. by rewrite Hfile. }
  assert (Hdiff : lift (new_profiles_of profiles (JObj kv)) (record EvRead w)
                  = (Ok new, record EvRead w)).
  { unfold lift, new_profiles_of. simpl. rewrite Hkv. simpl.
    by rewrite Hset. }
  assert (Hext : Py.extend_item (JObj kv) "profiles" new
                 = Raise AttributeError).
  { unfold Py.extend_item. simpl. rewrite Hkv. simpl.
    destruct v as [| |l|]; try done. by destruct (Hv l). }
  assert (∃ evs,
    update_cache clock notifier profiles w =
      (Raise AttributeError,
       World (file w) (writable w) (ticks w + length new)
         (trace w ++ EvRead :: EvLog INFO (NewProfiles new) :: evs))
    ∧ posts evs = joined new ∧ writes evs = [] ∧ reads evs = 0)
    as (evs & Hrun & Hrest).
  { unfold update_cache.
    rewrite (bind_Ok _ _ _ _ _ Hread), (bind_Ok _ _ _ _ _ Hdiff).
    clear Hdiff Hread. clearbody new.
    destruct new as [|x new']; [done|]. set (new := x :: new') in *.
    unfold logging at 1, bind at 1.
    edestruct (for_each_push clock notifier new "Joined Segment")
      as (evs & Hrun & Hp & Hwr & Hrd & _).
    rewrite (bind_Ok _ _ _ _ _ Hrun). exists evs. split; [|done].
    unfold lift, bind. rewrite Hext. cbn [record file writable ticks trace].
    do 2 f_equal. by rewrite <-!(assoc_L (++)). }
  exists evs. split; [|done]. by rewrite (bind_Raise _ _ _ _ _ Hrun).
Qed.

End Further.

(** ** The scenarios *)

(** The fixtures are run with the enumeration of [elements]. *)
#[local] Existing Instance elements_order.

(** Scenario A: a leaves, c joins, b stays. *)
Example scenario_A :
  run segment_bc world_ab =
    (Ok (),
     World
       (Stored (JObj [("profiles", JArr ["c"; "b"]);
                      ("last_updated", JStr "t3")]))
       true 4
       [EvRead;
        EvLog INFO (NewProfiles ["c"]);
        EvPost "c" "Joined Segment" "t0" (Status 202);
        EvLog INFO (EventSent "Joined Segment" "c");
        EvWrite (JObj [("profiles", JArr ["a"; "b"; "c"]);
                       ("last_updated", JStr "t1")]);
        EvLog INFO CacheUpdated;
        EvRead;
        EvLog INFO (StaleProfiles ["a"]);
        EvPost "a" "Left Segment" "t2" (Status 202);
        EvLog INFO (EventSent "Left Segment" "a");
        EvWrite (JObj [("profiles", JArr ["c"; "b"]);
                       ("last_updated", JStr "t3")]);
        EvLog INFO StaleUpdated]).
Proof. vm_compute. reflexivity. Qed.

(** Scenario B: the first run records everybody. *)
Example scenario_B :
  posts (trace (run segment_bc world_first).2)
    = [("c", "Joined Segment"); ("b", "Joined Segment")]
  ∧ members (file (run segment_bc world_first).2)
    = Some (list_to_set ["b"; "c"])
  ∧ warnings (trace (run segment_bc world_first).2) = [].
Proof. vm_compute. done. Qed.

(** Scenario C: a failed fetch changes nothing. *)
Example scenario_C :
  run segment_failing world_ab =
    (Ok (),
     World (Stored cache_ab) true 0
       [EvLog ERROR (FetchFailed 503); EvLog WARNING NoProfilesFetched]).
Proof. vm_compute. reflexivity. Qed.

(** Scenario D: nothing changed, nothing written. *)
Example scenario_D :
  run segment_bc world_bc =
    (Ok (),
     World (Stored cache_bc) true 1
       [EvRead; EvLog INFO NoNewProfiles;
        EvRead; EvLog INFO NoStaleProfiles]).
Proof. vm_compute. reflexivity. Qed.

(** Scenario A again with every event rejected: the same record results. *)
Example scenario_A_rejected :
  file (main test_clock always_rejects segment_bc world_ab).2
  = file (run segment_bc world_ab).2
  ∧ posts (trace (main test_clock always_rejects segment_bc world_ab).2)
    = [("c", "Joined Segment"); ("a", "Left Segment")].
Proof. vm_compute. done. Qed.

(** A stored string is walked character by character, not byte by byte:
    the identity spelled by its one character is already known. *)
Example non_ascii_string_is_one_character :
  Py.chars "ł" = ["ł"]
  ∧ Py.chars "añb" = ["a"; "ñ"; "b"]
  ∧ run segment_l world_text_l
    = (Ok (),
       World (Stored (JObj [("profiles", JStr "ł")])) true 0
         [EvRead; EvLog INFO NoNewProfiles;
          EvRead; EvLog INFO NoStaleProfiles]).
Proof. vm_compute. done. Qed.

(** Identities differing in case are different identities. *)
Example identities_are_case_sensitive :
  new_profiles_of (order := elements_order) ["A@x.io"]
    (JObj [("profiles", JArr ["a@x.io"])]) = Ok ["A@x.io"].
Proof. vm_compute. reflexivity. Qed.

(** ** Where the code departs from the stated discipline *)

(** C3 — counterexample.  In scenario A the run opens the record for
    reading twice and writes it twice, and its first write comes before
    the "left" notification: the once-read, once-written, write-last
    discipline fails. *)
Lemma store_discipline_fails :
  let tr := trace (run segment_bc world_ab).2 in
  reads tr = 2
  ∧ length (writes tr) = 2
  ∧ writes_come_last tr = false
  ∧ ¬ store_discipline tr.
Proof.
  split_and!; [by vm_compute..|].
  intros [Hreads _]. vm_compute in Hreads. discriminate Hreads.
Qed.

(** C4 — counterexample.  A decodable record without the ["profiles"] key
    makes the add phase raise [KeyError]; a file that cannot be opened
    makes it raise [PermissionError]; a record that is a bare list makes
    the removal phase raise [AttributeError].  Loading can fail. *)
Lemma load_can_fail :
  (update_cache (order := elements_order) test_clock accepts_all ["a"]
     world_no_key).1 = Raise KeyError
  ∧ (update_cache (order := elements_order) test_clock accepts_all ["a"]
       world_unreadable).1 = Raise PermissionError
  ∧ (remove_stale_profiles (order := elements_order) test_clock accepts_all
       ["a"] world_bare_list).1 = Raise AttributeError
  ∧ ¬ load_never_fails.
Proof.
  split_and!; [by vm_compute..|].
  intros Hclaim.
  destruct (Hclaim elements_order test_clock accepts_all ["a"] world_no_key
              eq_refl) as [Hadd _].
  vm_compute in Hadd. discriminate Hadd.
Qed.

(** C5 — counterexample.  When the request for the second page cannot
    be made, the fetch does not report the empty list: it raises
    [RequestException], and so does the run, whose warning of an empty
    fetch is never logged.  Not every fetch failure is reported as an
    empty set. *)
Lemma transport_failure_is_not_reported_as_empty :
  fetch_fails segment_unreachable = true
  ∧ (fetch_profiles segment_unreachable world_ab).1 = Raise RequestException
  ∧ run segment_unreachable world_ab = (Raise RequestException, world_ab)
  ∧ ¬ failures_reported_as_empty.
Proof.
  split_and!; [by vm_compute..|].
  intros Hclaim.
  specialize (Hclaim segment_unreachable world_ab eq_refl).
  vm_compute in Hclaim. discriminate Hclaim.
Qed.

(** ** The properties at work on the fixtures *)

Lemma convergence_witness :
  ((fetch_profiles segment_bc world_ab).1 = Ok ["b"; "c"]
   ∧ ["b"; "c"] ≠ []
   ∧ prior_members (file world_ab) = Some (list_to_set ["a"; "b"])
   ∧ writable world_ab = true)
  ∧ ∃ w', main (order := elements_order) test_clock accepts_all
            segment_bc world_ab = (Ok (), w')
          ∧ members (file w') = Some (list_to_set ["b"; "c"]).
Proof.
  split; [by vm_compute|].
  apply (convergence test_clock accepts_all segment_bc world_ab ["b"; "c"]
           (list_to_set ["a"; "b"])); by vm_compute.
Defined.

Lemma diff_correct_witness :
  ((fetch_profiles segment_bc world_ab).1 = Ok ["b"; "c"]
   ∧ ["b"; "c"] ≠ []
   ∧ prior_members (file world_ab) = Some (list_to_set ["a"; "b"])
   ∧ writable world_ab = true)
  ∧ ∃ w1 evs1 w2 evs2,
      update_cache test_clock accepts_all ["b"; "c"] world_ab = (Ok (), w1)
      ∧ trace w1 = trace world_ab ++ evs1
      ∧ posts evs1 = [("c", "Joined Segment")]
      ∧ remove_stale_profiles test_clock accepts_all ["b"; "c"] w1
        = (Ok (), w2)
      ∧ trace w2 = trace w1 ++ evs2
      ∧ posts evs2 = [("a", "Left Segment")]
      ∧ members (file w2) = Some (list_to_set ["b"; "c"])
      ∧ main test_clock accepts_all segment_bc world_ab = (Ok (), w2).
Proof.
  split; [by vm_compute|].
  destruct (diff_correct test_clock accepts_all segment_bc world_ab
              ["b"; "c"] (list_to_set ["a"; "b"]))
    as (cache & new & w1 & evs1 & doc1 & current & w2 & evs2 & _ & _ & ->
        & _ & _ & Hrun1 & Htr1 & Hp1 & _ & _ & _ & Hstale & Hrun2 & Htr2
        & Hp2 & _ & Hm & Hmain); [by vm_compute..|].
  exists w1, evs1, w2, evs2. split_and!; try done.
  rewrite Hp2, Hstale. by vm_compute.
Defined.

Lemma store_discipline_per_phase_witness :
  ((fetch_profiles segment_bc world_ab).1 = Ok ["b"; "c"]
   ∧ ["b"; "c"] ≠ []
   ∧ prior_members (file world_ab) = Some (list_to_set ["a"; "b"])
   ∧ writable world_ab = true)
  ∧ ∃ w1 w2 evs1 evs2,
      update_cache (order := elements_order) test_clock accepts_all
        ["b"; "c"] world_ab = (Ok (), w1)
      ∧ trace w1 = trace world_ab ++ evs1
      ∧ remove_stale_profiles test_clock accepts_all ["b"; "c"] w1
        = (Ok (), w2)
      ∧ trace w2 = trace w1 ++ evs2
      ∧ main test_clock accepts_all segment_bc world_ab = (Ok (), w2)
      ∧ reads evs1 = 1 ∧ reads evs2 = 1
      ∧ length (writes evs1) = 1
      ∧ length (writes evs2) = 1
      ∧ writes_come_last evs1 = true ∧ writes_come_last evs2 = true
      ∧ reads (evs1 ++ evs2) = 2.
Proof.
  split; [by vm_compute|].
  destruct (store_discipline_per_phase test_clock accepts_all segment_bc
              world_ab ["b"; "c"] (list_to_set ["a"; "b"]))
    as (w1 & w2 & evs1 & evs2 & Hrun1 & Htr1 & Hrun2 & Htr2 & Hmain
        & Hr1 & Hr2 & Hw1 & Hw2 & Ho1 & Ho2 & _ & _ & Hr & _);
    [by vm_compute..|].
  exists w1, w2, evs1, evs2.
  rewrite decide_False in Hw1 by (by vm_compute).
  rewrite decide_False in Hw2 by (by vm_compute).
  by split_and!.
Defined.

Lemma load_recovers_missing_or_undecodable_witness :
  ((file world_first = Missing ∨ file world_first = Garbage)
   ∧ writable world_first = true)
  ∧ update_cache (order := elements_order) test_clock accepts_all
      ["x"; "y"] world_first
    = update_cache test_clock accepts_all ["x"; "y"]
        (set_file (Stored CACHE_FILE_default) world_first)
  ∧ remove_stale_profiles (order := elements_order) test_clock accepts_all
      ["x"; "y"] world_first
    = (Ok (), World Missing true 0 [EvRead; EvLog WARNING CacheInvalid]).
Proof.
  split; [split; [by left|reflexivity]|].
  destruct (load_recovers_missing_or_undecodable test_clock accepts_all
              ["x"; "y"] world_first (or_introl eq_refl) eq_refl)
    as (_ & _ & _ & Hsame & _ & Hskip).
  split; [by apply Hsame|exact Hskip].
Defined.

Lemma empty_fetch_gate_witness :
  (fetch_profiles segment_failing world_ab).1 = Ok []
  ∧ ∃ evs,
      main (order := elements_order) test_clock accepts_all
        segment_failing world_ab
      = (Ok (), World (file world_ab) (writable world_ab) (ticks world_ab)
                  (trace world_ab ++ evs))
      ∧ posts evs = [] ∧ reads evs = 0 ∧ writes evs = []
      ∧ warnings evs = [NoProfilesFetched].
Proof.
  split; [reflexivity|].
  apply (empty_fetch_gate test_clock accepts_all segment_failing world_ab).
  reflexivity.
Defined.

Lemma notification_per_delta_witness :
  ((fetch_profiles segment_bc world_ab).1 = Ok ["b"; "c"]
   ∧ ["b"; "c"] ≠ []
   ∧ prior_members (file world_ab) = Some (list_to_set ["a"; "b"])
   ∧ writable world_ab = true)
  ∧ ∃ w' evs,
      main (order := elements_order) test_clock accepts_all
        segment_bc world_ab = (Ok (), w')
      ∧ trace w' = trace world_ab ++ evs
      ∧ attempts "Joined Segment" evs ≡ₚ ["c"]
      ∧ attempts "Left Segment" evs ≡ₚ ["a"]
      ∧ length (posts evs) = 2.
Proof.
  split; [by vm_compute|].
  destruct (notification_per_delta test_clock accepts_all segment_bc
              world_ab ["b"; "c"] (list_to_set ["a"; "b"]))
    as (w' & evs & Hrun & Htr & Hj & Hl & _ & _ & Hn & _);
    [by vm_compute..|].
  exists w', evs. split_and!; [done|done|exact Hj|exact Hl|exact Hn].
Defined.

Lemma notification_failure_isolated_witness :
  ((fetch_profiles segment_bc world_ab).1 = Ok ["b"; "c"]
   ∧ ["b"; "c"] ≠ []
   ∧ prior_members (file world_ab) = Some (list_to_set ["a"; "b"])
   ∧ writable world_ab = true)
  ∧ ∃ w' evs,
      main (order := elements_order) test_clock always_down
        segment_bc world_ab = (Ok (), w')
      ∧ trace w' = trace world_ab ++ evs
      ∧ members (file w') = Some (list_to_set ["b"; "c"])
      ∧ NoDup (posts evs)
      ∧ ("c", "Joined Segment") ∈ posts evs
      ∧ ("a", "Left Segment") ∈ posts evs.
Proof.
  split; [by vm_compute|].
  destruct (notification_failure_isolated test_clock always_down segment_bc
              world_ab ["b"; "c"] (list_to_set ["a"; "b"]))
    as (w' & evs & M & Hrun & Htr & Hm & -> & Hnd & Hj & Hl & _);
    [by vm_compute..|].
  exists w', evs. split_and!; try done.
  - apply Hj. by vm_compute.
  - apply Hl. by vm_compute.
Defined.

Lemma idempotence_witness :
  ((fetch_profiles segment_bc world_ab).1 = Ok ["b"; "c"]
   ∧ ["b"; "c"] ≠ []
   ∧ prior_members (file world_ab) = Some (list_to_set ["a"; "b"])
   ∧ writable world_ab = true)
  ∧ ∃ w1 doc1 current w2 evs,
      main (order := elements_order) test_clock accepts_all
        segment_bc world_ab = (Ok (), w1)
      ∧ file w1 = Stored doc1
      ∧ new_profiles_of ["b"; "c"] doc1 = Ok []
      ∧ cached_profiles_of doc1 = Ok current
      ∧ stale_profiles_of ["b"; "c"] current = ∅
      ∧ main test_clock accepts_all segment_bc w1 = (Ok (), w2)
      ∧ trace w2 = trace w1 ++ evs
      ∧ posts evs = []
      ∧ writes evs = []
      ∧ file w2 = file w1.
Proof.
  split; [by vm_compute|].
  apply (idempotence test_clock accepts_all segment_bc world_ab ["b"; "c"]
           (list_to_set ["a"; "b"])); by vm_compute.
Defined.

Lemma last_updated_discipline_witness :
  ((fetch_profiles segment_bc world_ab).1 = Ok ["b"; "c"]
   ∧ ["b"; "c"] ≠ []
   ∧ prior_members (file world_ab) = Some (list_to_set ["a"; "b"])
   ∧ writable world_ab = true)
  ∧ ∃ w' evs,
      main (order := elements_order) test_clock accepts_all
        segment_bc world_ab = (Ok (), w')
      ∧ trace w' = trace world_ab ++ evs
      ∧ writes evs ≠ [] ∧ ticks world_ab < ticks w'
      ∧ last_updated (file w') = Some (JStr (test_clock (pred (ticks w')))).
Proof.
  split; [by vm_compute|].
  destruct (last_updated_discipline test_clock accepts_all segment_bc
              world_ab ["b"; "c"] (list_to_set ["a"; "b"]))
    as (w' & evs & Hrun & Htr & _ & Hchange); [by vm_compute..|].
  exists w', evs. split_and!; [done|done|apply Hchange..];
    left; by vm_compute.
Defined.

Lemma removal_always_loads_witness :
  ((fetch_profiles segment_bc world_first).1 = Ok ["b"; "c"]
   ∧ ["b"; "c"] ≠ [])
  ∧ (∀ w1, update_cache (order := elements_order) test_clock accepts_all
             ["b"; "c"] world_first = (Ok (), w1) →
           ∃ doc, file w1 = Stored doc)
  ∧ ∃ r w' evs,
      main (order := elements_order) test_clock accepts_all
        segment_bc world_first = (r, w')
      ∧ trace w' = trace world_first ++ evs
      ∧ ¬ (EvLog WARNING CacheInvalid ∈ evs)
      ∧ warnings evs = [].
Proof.
  split; [by vm_compute|].
  apply (removal_always_loads test_clock accepts_all segment_bc world_first
           ["b"; "c"]); by vm_compute.
Defined.

(** ** The further properties at work on the fixtures *)

Lemma notifications_joined_then_left_witness :
  ((fetch_profiles segment_bc world_ab).1 = Ok ["b"; "c"]
   ∧ ["b"; "c"] ≠ []
   ∧ prior_members (file world_ab) = Some (list_to_set ["a"; "b"])
   ∧ writable world_ab = true)
  ∧ ∃ w' evs,
      main test_clock accepts_all segment_bc world_ab = (Ok (), w')
      ∧ trace w' = trace world_ab ++ evs
      ∧ posts evs = [("c", "Joined Segment"); ("a", "Left Segment")].
Proof.
  split; [by vm_compute|].
  destruct (notifications_joined_then_left test_clock accepts_all segment_bc
              world_ab ["b"; "c"] (list_to_set ["a"; "b"]))
    as (w' & evs & Hrun & Htr & Hposts & _); [by vm_compute..|].
  exists w', evs. split_and!; [done|done|].
  rewrite Hposts. by vm_compute.
Defined.

Lemma read_only_store_fails_after_joined_witness :
  ((fetch_profiles segment_bc world_read_only).1 = Ok ["b"; "c"]
   ∧ ["b"; "c"] ≠ []
   ∧ prior_members (file world_read_only) = Some (list_to_set ["a"; "b"])
   ∧ writable world_read_only = false
   ∧ (list_to_set ["b"; "c"] : gset string) ∖ list_to_set ["a"; "b"] ≠ ∅)
  ∧ ∃ w' evs,
      main test_clock accepts_all segment_bc world_read_only
        = (Raise PermissionError, w')
      ∧ trace w' = trace world_read_only ++ evs
      ∧ file w' = file world_read_only
      ∧ posts evs = joined (iter (list_to_set ["b"; "c"]
                                  ∖ list_to_set ["a"; "b"]))
      ∧ writes evs = []
      ∧ reads evs = 1.
Proof.
  split; [by vm_compute|].
  apply (read_only_store_fails_after_joined test_clock accepts_all
           segment_bc world_read_only ["b"; "c"] (list_to_set ["a"; "b"]));
    by vm_compute.
Defined.

Lemma read_only_store_fails_after_left_witness :
  ((fetch_profiles segment_b world_read_only).1 = Ok ["b"]
   ∧ ["b"] ≠ []
   ∧ prior_members (file world_read_only) = Some (list_to_set ["a"; "b"])
   ∧ writable world_read_only = false
   ∧ (list_to_set ["b"] : gset string) ∖ list_to_set ["a"; "b"] = ∅
   ∧ (list_to_set ["a"; "b"] : gset string) ∖ list_to_set ["b"] ≠ ∅)
  ∧ ∃ w' evs,
      main test_clock accepts_all segment_b world_read_only
        = (Raise PermissionError, w')
      ∧ trace w' = trace world_read_only ++ evs
      ∧ file w' = file world_read_only
      ∧ posts evs = left (iter (list_to_set ["a"; "b"] ∖ list_to_set ["b"]))
      ∧ writes evs = []
      ∧ reads evs = 2.
Proof.
  split; [by vm_compute|].
  apply (read_only_store_fails_after_left test_clock accepts_all
           segment_b world_read_only ["b"] (list_to_set ["a"; "b"]));
    by vm_compute.
Defined.

Lemma unchanged_run_is_read_only_witness :
  ((fetch_profiles segment_bc world_bc_read_only).1 = Ok ["b"; "c"]
   ∧ ["b"; "c"] ≠ []
   ∧ prior_members (file world_bc_read_only)
     = Some (list_to_set ["b"; "c"]))
  ∧ main test_clock accepts_all segment_bc world_bc_read_only =
      (Ok (), World (Stored cache_bc) false 1
                [EvRead; EvLog INFO NoNewProfiles;
                 EvRead; EvLog INFO NoStaleProfiles]).
Proof.
  split; [by vm_compute|].
  apply (unchanged_run_is_read_only test_clock accepts_all segment_bc
           world_bc_read_only ["b"; "c"]); by vm_compute.
Defined.

Lemma other_fields_survive_witness :
  ((fetch_profiles segment_bc world_noted).1 = Ok ["b"; "c"]
   ∧ ["b"; "c"] ≠ []
   ∧ file world_noted
     = Stored (JObj [("owner", JStr "ops");
                     ("profiles", JArr ["a"; "b"; "a"])])
   ∧ writable world_noted = true)
  ∧ ∃ w' kv',
      main test_clock accepts_all segment_bc world_noted = (Ok (), w')
      ∧ file w' = Stored (JObj kv')
      ∧ Py.assoc "owner" kv' = Some (JStr "ops")
      ∧ NoDup kv'.*1.
Proof.
  split; [by vm_compute|].
  destruct (other_fields_survive test_clock accepts_all segment_bc
              world_noted ["b"; "c"]
              [("owner", JStr "ops"); ("profiles", JArr ["a"; "b"; "a"])]
              ["a"; "b"; "a"])
    as (w' & kv' & Hrun & Hfile & Hother & _ & Hnd); [by vm_compute..|].
  exists w', kv'. split_and!; [done|done|..].
  - by rewrite Hother.
  - apply Hnd. simpl. repeat constructor; set_solver.
Defined.

Lemma stored_list_duplicate_free_witness :
  ((fetch_profiles segment_bc world_noted).1 = Ok ["b"; "c"]
   ∧ ["b"; "c"] ≠ []
   ∧ loaded_by_update (file world_noted) = Some cache_noted
   ∧ writable world_noted = true
   ∧ (list_to_set ["a"; "b"; "a"] : gset string) ∖ list_to_set ["b"; "c"]
     ≠ ∅)
  ∧ ∃ w' doc' l',
      main test_clock accepts_all segment_bc world_noted = (Ok (), w')
      ∧ file w' = Stored doc'
      ∧ doc_profiles doc' = Some l'
      ∧ NoDup l'
      ∧ ∀ x, x ∈ l' ↔ x ∈ ["b"; "c"].
Proof.
  split; [by vm_compute|].
  apply (stored_list_duplicate_free test_clock accepts_all segment_bc
           world_noted ["b"; "c"]
           [("owner", JStr "ops"); ("profiles", JArr ["a"; "b"; "a"])]
           ["a"; "b"; "a"]); try by vm_compute.
  right. by vm_compute.
Defined.

Lemma clock_read_per_attempt_and_write_witness :
  ((fetch_profiles segment_bc world_ab).1 = Ok ["b"; "c"]
   ∧ ["b"; "c"] ≠ []
   ∧ prior_members (file world_ab) = Some (list_to_set ["a"; "b"])
   ∧ writable world_ab = true)
  ∧ ∃ w' evs,
      main test_clock accepts_all segment_bc world_ab = (Ok (), w')
      ∧ trace w' = trace world_ab ++ evs
      ∧ ticks w' = ticks world_ab + length (posts evs) + length (writes evs).
Proof.
  split; [by vm_compute|].
  apply (clock_read_per_attempt_and_write test_clock accepts_all segment_bc
           world_ab ["b"; "c"] (list_to_set ["a"; "b"])); by vm_compute.
Defined.

Lemma update_cache_appends_witness :
  (file world_noted
   = Stored (JObj [("owner", JStr "ops");
                   ("profiles", JArr ["a"; "b"; "a"])])
   ∧ writable world_noted = true)
  ∧ ∃ w1 doc1 new,
      update_cache test_clock accepts_all ["b"; "c"] world_noted
        = (Ok (), w1)
      ∧ file w1 = Stored doc1
      ∧ doc_profiles doc1 = Some (["a"; "b"; "a"] ++ new)
      ∧ NoDup new
      ∧ ∀ x, x ∈ new ↔ x ∈ ["b"; "c"] ∧ x ∉ ["a"; "b"; "a"].
Proof.
  split; [by vm_compute|].
  apply (update_cache_appends test_clock accepts_all ["b"; "c"] world_noted
           [("owner", JStr "ops"); ("profiles", JArr ["a"; "b"; "a"])]);
    by vm_compute.
Defined.

Lemma remove_stale_profiles_only_removes_witness :
  (file world_ab = Stored cache_ab ∧ writable world_ab = true)
  ∧ ∃ w2 doc2 evs,
      remove_stale_profiles test_clock accepts_all [] world_ab = (Ok (), w2)
      ∧ trace w2 = trace world_ab ++ evs
      ∧ file w2 = Stored doc2
      ∧ doc_profiles doc2 = Some []
      ∧ ("a", "Left Segment") ∈ posts evs
      ∧ ("b", "Left Segment") ∈ posts evs.
Proof.
  split; [by vm_compute|].
  destruct (remove_stale_profiles_only_removes test_clock accepts_all []
              world_ab
              [("profiles", JArr ["a"; "b"]); ("last_updated", JNull)]
              ["a"; "b"])
    as (w2 & doc2 & l2 & evs & Hrun & Htr & Hfile & Hdoc & Hl2 & _ & Hposts);
    [by vm_compute..|].
  exists w2, doc2, evs. split_and!; [done|done|done|..].
  - rewrite Hdoc. f_equal. destruct l2 as [|x l2]; [done|].
    destruct (proj1 (Hl2 x)) as [_ Hx]; [by left|]. by apply elem_of_nil in Hx.
  - apply Hposts. split_and!; [done|set_solver|apply not_elem_of_nil].
  - apply Hposts. split_and!; [done|set_solver|apply not_elem_of_nil].
Defined.

Lemma missing_profiles_key_asymmetry_witness :
  (file world_no_key = Stored (JObj [])
   ∧ Py.assoc "profiles" [] = None)
  ∧ remove_stale_profiles test_clock accepts_all ["a"] world_no_key =
      (Ok (), World (Stored (JObj [])) true 0
                [EvRead; EvLog INFO NoStaleProfiles])
  ∧ update_cache test_clock accepts_all ["a"] world_no_key
    = (Raise KeyError, record EvRead world_no_key).
Proof.
  split; [by vm_compute|].
  apply (missing_profiles_key_asymmetry test_clock accepts_all ["a"]
           world_no_key []); reflexivity.
Defined.

Lemma ill_shaped_record_fails_first_witness :
  ((fetch_profiles segment_bc world_bare_list).1 = Ok ["b"; "c"]
   ∧ ["b"; "c"] ≠ []
   ∧ file world_bare_list = Stored (JArr ["a"])
   ∧ new_profiles_of ["b"; "c"] (JArr ["a"]) = Raise TypeError)
  ∧ main test_clock accepts_all segment_bc world_bare_list
    = (Raise TypeError, record EvRead world_bare_list).
Proof.
  split; [by vm_compute|].
  apply (ill_shaped_record_fails_first test_clock accepts_all segment_bc
           world_bare_list ["b"; "c"] (JArr ["a"]) TypeError);
    by vm_compute.
Defined.

Lemma iterable_non_list_fails_after_joined_witness :
  ((fetch_profiles segment_bc world_text).1 = Ok ["b"; "c"]
   ∧ ["b"; "c"] ≠ []
   ∧ file world_text = Stored (JObj [("profiles", JStr "ab")])
   ∧ Py.set_of (JStr "ab") = Ok (list_to_set ["a"; "b"]))
  ∧ ∃ evs,
      main test_clock accepts_all segment_bc world_text =
        (Raise AttributeError,
         World (file world_text) (writable world_text)
           (ticks world_text
            + length (iter (list_to_set ["b"; "c"] ∖ list_to_set ["a"; "b"])))
           (trace world_text
            ++ EvRead
               :: EvLog INFO
                    (NewProfiles
                       (iter (list_to_set ["b"; "c"]
                              ∖ list_to_set ["a"; "b"])))
               :: evs))
      ∧ posts evs
        = joined (iter (list_to_set ["b"; "c"] ∖ list_to_set ["a"; "b"]))
      ∧ writes evs = [] ∧ reads evs = 0.
Proof.
  split; [by vm_compute|].
  apply (iterable_non_list_fails_after_joined test_clock accepts_all
           segment_bc world_text ["b"; "c"] [("profiles", JStr "ab")]
           (JStr "ab") (list_to_set ["a"; "b"])); by vm_compute.
Defined.
